(** * Verification of the api-gateway [HttpClient]
    (src/apps/api-gateway/src/common/http-client/http-client.service.ts).

    Shallow embedding of the retry policy (axios-retry configured in the
    constructor), the backoff delay, the option merge, the per-service
    breaker registry, the service-key derivation and the [request] path. *)

From Stdlib Require Import ZArith QArith Qround Lia.
From stdpp Require Import base gmap strings list.

#[local] Set Warnings "-register-all".
Open Scope Z_scope.

(** ** JavaScript values and HTTP data *)

(** A JSON-like JavaScript value: the [data] of a response and the
    values a caller receives are of this type. *)
Inductive JsVal : Type :=
| JUndefined
| JNull
| JBool (b : bool)
| JNum (n : Z)
| JStr (s : string)
| JArr (xs : list JsVal)
| JObj (fields : list (string * JsVal)).

(** [type HttpResponse<T> = { status; data; headers }]. *)
Record HttpResponse : Type := mkResponse {
  status : Z;
  data : JsVal;
  headers : list (string * JsVal)
}.

(** The triple as a JavaScript object. *)
Definition response_object (r : HttpResponse) : JsVal :=
  JObj [("status", JNum (status r)); ("data", data r);
        ("headers", JObj (headers r))].

(** [type HttpMethod = 'GET' | 'POST' | 'PUT' | 'PATCH' | 'DELETE']. *)
Inductive HttpMethod : Type := GET | POST | PUT | PATCH | DELETE.

(** axios stores the method lower-cased in [error.config.method]. *)
Definition method_lower (m : HttpMethod) : string :=
  match m with
  | GET => "get" | POST => "post" | PUT => "put"
  | PATCH => "patch" | DELETE => "delete"
  end.

(** The fields of an [AxiosError] the retry policy reads:
    [error.code], [error.response?.status] ([None] when there is no
    response) and [error.config?.method]. *)
Record AxiosError : Type := mkAxiosError {
  code : option string;
  response_status : option Z;
  config_method : option string
}.

(** ** The axios-retry predicates used by [shouldRetry] *)

(** [is-retry-allowed]: a deny list of error codes. *)
Definition retry_deny_list : list string :=
  ["ENOTFOUND"; "ENETUNREACH"; "UNABLE_TO_GET_ISSUER_CERT";
   "UNABLE_TO_GET_CRL"; "UNABLE_TO_DECRYPT_CERT_SIGNATURE";
   "UNABLE_TO_DECRYPT_CRL_SIGNATURE"; "UNABLE_TO_DECODE_ISSUER_PUBLIC_KEY";
   "CERT_SIGNATURE_FAILURE"; "CRL_SIGNATURE_FAILURE"; "CERT_NOT_YET_VALID";
   "CERT_HAS_EXPIRED"; "CRL_NOT_YET_VALID"; "CRL_HAS_EXPIRED";
   "ERROR_IN_CERT_NOT_BEFORE_FIELD"; "ERROR_IN_CERT_NOT_AFTER_FIELD";
   "ERROR_IN_CRL_LAST_UPDATE_FIELD"; "ERROR_IN_CRL_NEXT_UPDATE_FIELD";
   "OUT_OF_MEM"; "DEPTH_ZERO_SELF_SIGNED_CERT"; "SELF_SIGNED_CERT_IN_CHAIN";
   "UNABLE_TO_GET_ISSUER_CERT_LOCALLY"; "UNABLE_TO_VERIFY_LEAF_SIGNATURE";
   "CERT_CHAIN_TOO_LONG"; "CERT_REVOKED"; "INVALID_CA";
   "PATH_LENGTH_EXCEEDED"; "INVALID_PURPOSE"; "CERT_UNTRUSTED";
   "CERT_REJECTED"; "HOSTNAME_MISMATCH"].

Definition in_strings (s : string) (l : list string) : bool :=
  bool_decide (s ∈ l).

Definition isRetryAllowed (e : AxiosError) : bool :=
  match code e with
  | Some c => negb (in_strings c retry_deny_list)
  | None => true
  end.

(** [isNetworkError]: no response, a code, not a cancel or an
    [ECONNABORTED] (axios' timeout code), and a retry-allowed code. *)
Definition isNetworkError (e : AxiosError) : bool :=
  match response_status e with
  | Some _ => false
  | None =>
      match code e with
      | None => false
      | Some c =>
          if in_strings c ["ERR_CANCELED"; "ECONNABORTED"] then false
          else isRetryAllowed e
      end
  end.

(** [isRetryableError]: not [ECONNABORTED], and no response, a 429 or a
    5xx. *)
Definition isRetryableError (e : AxiosError) : bool :=
  negb (bool_decide (code e = Some "ECONNABORTED")) &&
  match response_status e with
  | None => true
  | Some s => (s =? 429) || ((500 <=? s) && (s <=? 599))
  end.

Definition IDEMPOTENT_HTTP_METHODS : list string :=
  ["get"; "head"; "options"; "put"; "delete"].

Definition isIdempotentRequestError (e : AxiosError) : bool :=
  match config_method e with
  | None => false
  | Some m => isRetryableError e && in_strings m IDEMPOTENT_HTTP_METHODS
  end.

Definition isNetworkOrIdempotentRequestError (e : AxiosError) : bool :=
  isNetworkError e || isIdempotentRequestError e.

Definition in_Z (s : Z) (l : list Z) : bool := bool_decide (s ∈ l).

(** [HttpClient.shouldRetry]: [[429, 502, 503, 504].includes(status)]
    is false when there is no response ([status] is [undefined]). *)
Definition shouldRetry (e : AxiosError) : bool :=
  if isNetworkOrIdempotentRequestError e then true
  else
    match response_status e with
    | Some s => in_Z s [429; 502; 503; 504]
    | None => false
    end.

(** ** Backoff delay *)

(** The [retryDelay] callback given to axios-retry in the constructor:
    [expo = Math.min(maxDelayMs, baseDelayMs * 2 ** (retryCount - 1))],
    [jitter = Math.floor(Math.random() * 100)], [delay = expo + jitter].
    [random] is the sample returned by [Math.random()], in [[0, 1)]. *)
Definition retryDelay (baseDelayMs maxDelayMs retryCount : Z) (random : Q)
  : Z :=
  let expo := Z.min maxDelayMs (baseDelayMs * 2 ^ (retryCount - 1)) in
  let jitter := Qfloor (random * 100)%Q in
  expo + jitter.

(** ** One exchange and axios' status validation *)

(** What the network gives back for one attempt: a response, or a
    failure without response identified by its error code
    ([ECONNREFUSED], [ENOTFOUND], [ECONNABORTED] for axios' timeout...). *)
Inductive Exchange : Type :=
| Responded (r : HttpResponse)
| Failed (c : string).

(** axios' default [validateStatus]: [status >= 200 && status < 300]. *)
Definition default_validateStatus (s : Z) : bool := (200 <=? s) && (s <? 300).

(** axios' [settle]:
    [!response.status || !validateStatus || validateStatus(response.status)]
    resolves; otherwise it rejects with an [AxiosError] whose code is
    [[ERR_BAD_REQUEST, ERR_BAD_RESPONSE][Math.floor(status / 100) - 4]].
    [vs] is the request's [validateStatus] ([None]: [undefined] or
    [null]); [meth] is the request's [config.method], which the error
    carries. A failure without response keeps its own code. *)
Definition settle (meth : string) (vs : option (Z -> bool)) (x : Exchange)
  : HttpResponse + AxiosError :=
  match x with
  | Responded r =>
      if (status r =? 0) ||
         match vs with None => true | Some f => f (status r) end
      then inl r
      else inr (mkAxiosError
                  (if status r / 100 =? 4 then Some "ERR_BAD_REQUEST"
                   else if status r / 100 =? 5 then Some "ERR_BAD_RESPONSE"
                   else None)
                  (Some (status r)) (Some meth))
  | Failed c => inr (mkAxiosError (Some c) None (Some meth))
  end.

(** ** Configuration *)

(** [retries], [baseDelayMs], [maxDelayMs]: read in the constructor and
    captured by the axios-retry closures; also the shape of the merged
    [retry] options. *)
Record RetryConfig : Type := mkRetryConfig {
  retries : Z;
  baseDelayMs : Z;
  maxDelayMs : Z
}.

(** [HttpClientOptions], every field optional. *)
Record RetryOptions : Type := mkRetryOptions {
  opt_retries : option Z;
  opt_baseDelayMs : option Z;
  opt_maxDelayMs : option Z
}.

Record BreakerOptions : Type := mkBreakerOptions {
  opt_enabled : option bool;
  opt_breaker_timeoutMs : option Z;
  opt_errorThresholdPercentage : option Z;
  opt_resetTimeoutMs : option Z;
  opt_rollingCountTimeoutMs : option Z;
  opt_rollingCountBuckets : option Z
}.

Record HttpClientOptions : Type := mkHttpClientOptions {
  opt_timeoutMs : option Z;
  opt_retry : option RetryOptions;
  opt_breaker : option BreakerOptions
}.

(** [Required<HttpClientOptions>] as built by [mergeOptions]. *)
Record BreakerConfig : Type := mkBreakerConfig {
  enabled : bool;
  breaker_timeoutMs : Z;
  errorThresholdPercentage : Z;
  resetTimeoutMs : Z;
  rollingCountTimeoutMs : Z;
  rollingCountBuckets : Z
}.

Record MergedOptions : Type := mkMergedOptions {
  timeoutMs : Z;
  retry : RetryConfig;
  breaker : BreakerConfig
}.

(** An optional property of a JavaScript object: the key is absent, or
    present with [undefined] (for [validateStatus] and [validateResponse]
    also [null]), or present with a value. An object spread copies a
    present key even when its value is [undefined]. *)
Inductive Field (A : Type) : Type :=
| Absent
| Undef
| Val (a : A).
Arguments Absent {A}.
Arguments Undef {A}.
Arguments Val {A} a.

(** The per-request options of axios-retry, [config['axios-retry']]
    ([IAxiosRetryConfigExtended]). A [retryCondition] returning a promise
    is represented by what it settles to ([r !== false]; a rejection
    counts as [false]). [onRetry] and [onMaxRetryTimeExceeded] give
    [Some reason] when they throw (or return a rejected promise), [None]
    when they return normally. *)
Record AxiosRetryOptions : Type := mkAxiosRetryOptions {
  ar_retries : Field Z;
  ar_retryCondition : Field (AxiosError -> bool);
  ar_retryDelay : Field (Z -> AxiosError -> Z);
  ar_shouldResetTimeout : Field bool;
  ar_onRetry : Field (Z -> AxiosError -> option string);
  ar_onMaxRetryTimeExceeded : Field (AxiosError -> Z -> option string);
  ar_validateResponse : Field (HttpResponse -> bool);
  ar_retryCount : Field Z
}.

Definition no_retry_options : AxiosRetryOptions :=
  mkAxiosRetryOptions Absent Absent Absent Absent Absent Absent Absent Absent.

(** The caller's [AxiosRequestConfig], spread by [doAxios] after
    [method], [url], [data] and [timeout: timeoutMs]: the keys that change
    what axios and axios-retry do with the request. [config_axios_retry]
    is [None] when the key is absent, [undefined] or [null] (spreading
    such a value adds nothing). Headers, params and the other keys only
    shape the exchange itself, which the transport below receives along
    with the whole argument object. *)
Record AxiosRequestConfig : Type := mkAxiosRequestConfig {
  config_timeout : Field Z;
  config_req_method : Field string;
  config_validateStatus : Field (Z -> bool);
  config_axios_retry : option AxiosRetryOptions
}.

(** A config that sets nothing but possibly a timeout. *)
Definition timeout_config (t : Field Z) : AxiosRequestConfig :=
  mkAxiosRequestConfig t Absent Absent None.

(** The argument object of [doAxios] (and of [breaker.fire]). *)
Record DoAxiosArgs : Type := mkDoAxiosArgs {
  arg_method : HttpMethod;
  arg_url : string;
  arg_data : JsVal;
  arg_config : option AxiosRequestConfig;
  arg_timeoutMs : Z
}.

(** ** Circuit-breaker registry *)

(** The options handed to [new CircuitBreaker(action, {...})]. *)
Record BreakerSettings : Type := mkBreakerSettings {
  bs_timeout : Z;
  bs_errorThresholdPercentage : Z;
  bs_resetTimeout : Z;
  bs_rollingCountTimeout : Z;
  bs_rollingCountBuckets : Z
}.

(** A [CircuitBreaker] object: its identity (allocation number), the key
    it was created for and the settings it was constructed with. *)
Record CircuitBreaker : Type := mkCircuitBreaker {
  breaker_id : nat;
  breaker_key : string;
  breaker_settings : BreakerSettings
}.

(** The mutable state of one [HttpClient]: the [breakers] map, the next
    object identity, and the list of every breaker constructed so far
    (most recent first). *)
Record ClientState : Type := mkClientState {
  breakers : gmap string CircuitBreaker;
  next_id : nat;
  created : list CircuitBreaker
}.

Definition initial_state : ClientState := mkClientState ∅ 0 [].

Definition breaker_settings_of (opts : MergedOptions) : BreakerSettings :=
  mkBreakerSettings
    (breaker_timeoutMs (breaker opts))
    (errorThresholdPercentage (breaker opts))
    (resetTimeoutMs (breaker opts))
    (rollingCountTimeoutMs (breaker opts))
    (rollingCountBuckets (breaker opts)).

(** [HttpClient.getOrCreateBreaker]: [this.breakers.get(serviceKey)]; an
    existing breaker (an object, hence truthy) is returned; otherwise a
    new one is constructed, stored with [this.breakers.set] and
    returned. The [breaker.on(...)] handlers only log. *)
Definition getOrCreateBreaker (st : ClientState) (serviceKey : string)
    (opts : MergedOptions) : CircuitBreaker * ClientState :=
  match breakers st !! serviceKey with
  | Some existing => (existing, st)
  | None =>
      let b := mkCircuitBreaker (next_id st) serviceKey
                 (breaker_settings_of opts) in
      (b, mkClientState (<[serviceKey := b]> (breakers st))
                        (S (next_id st)) (b :: created st))
  end.

(** A sequence of [getOrCreateBreaker] calls, threading the state. *)
Fixpoint getOrCreate_all (st : ClientState)
    (calls : list (string * MergedOptions)) : ClientState :=
  match calls with
  | [] => st
  | (k, o) :: rest => getOrCreate_all (getOrCreateBreaker st k o).2 rest
  end.

(** ** URLs *)

(** The parts of a WHATWG [URL] object read here. *)
Record URLRecord : Type := mkURL {
  hostname : string
}.

(** Errors a call can reject with: an [AxiosError], an error raised by
    the breaker itself (open circuit, breaker timeout...), or another
    exception (thrown by a caller-supplied axios-retry callback, or the
    [TypeError] of calling one set to [undefined]). *)
Inductive CallError : Type :=
| AxiosErr (e : AxiosError)
| BreakerErr (message : string)
| OtherErr (reason : string).

(** What the promise of [this.axios.request(...)] rejects with. *)
Inductive Rejection : Type :=
| RejAxios (e : AxiosError)
| RejThrown (reason : string).

(** ** Options merge *)

Section Env.
(** [process.env] and the JavaScript [Number(...)] conversion of the
    strings it holds. *)
Variable env : string -> option string.
Variable Number : string -> Z.

(** [Number(process.env.KEY ?? lit)]. *)
Definition env_num (key : string) (lit : Z) : Z :=
  match env key with
  | Some s => Number s
  | None => lit
  end.

(** [x ?? d] for an optional field. *)
Definition coalesce {A} (x : option A) (d : A) : A :=
  match x with Some v => v | None => d end.

(** [HttpClient.mergeOptions]. [opts?.retry?.f] is [undefined] when
    [opts] or [opts.retry] is. *)
Definition mergeOptions (opts : option HttpClientOptions) : MergedOptions :=
  let ro := opts ≫= opt_retry in
  let bo := opts ≫= opt_breaker in
  let timeoutMs :=
    coalesce (opts ≫= opt_timeoutMs) (env_num "HTTP_TIMEOUT_MS" 6000) in
  mkMergedOptions
    timeoutMs
    (mkRetryConfig
       (coalesce (ro ≫= opt_retries) (env_num "HTTP_RETRY_COUNT" 2))
       (coalesce (ro ≫= opt_baseDelayMs)
                 (env_num "HTTP_RETRY_BASE_DELAY_MS" 250))
       (coalesce (ro ≫= opt_maxDelayMs)
                 (env_num "HTTP_RETRY_MAX_DELAY_MS" 1500)))
    (mkBreakerConfig
       (coalesce (bo ≫= opt_enabled)
                 (bool_decide (coalesce (env "HTTP_BREAKER_ENABLED") "true"
                               = "true")))
       (coalesce (bo ≫= opt_breaker_timeoutMs)
                 (env_num "HTTP_BREAKER_TIMEOUT_MS" 3500))
       (coalesce (bo ≫= opt_errorThresholdPercentage)
                 (env_num "HTTP_BREAKER_ERR_PCT" 50))
       (coalesce (bo ≫= opt_resetTimeoutMs)
                 (env_num "HTTP_BREAKER_RESET_MS" 10000))
       (coalesce (bo ≫= opt_rollingCountTimeoutMs)
                 (env_num "HTTP_BREAKER_ROLLING_MS" 10000))
       (coalesce (bo ≫= opt_rollingCountBuckets)
                 (env_num "HTTP_BREAKER_BUCKETS" 10))).

(** The constructor's [retries], [baseDelayMs], [maxDelayMs], captured
    once by [axiosRetry(this.axios, {...})]. *)
Definition constructor_retry : RetryConfig :=
  mkRetryConfig (env_num "HTTP_RETRY_COUNT" 2)
                (env_num "HTTP_RETRY_BASE_DELAY_MS" 250)
                (env_num "HTTP_RETRY_MAX_DELAY_MS" 1500).
End Env.

(** ** The axios instance built by the constructor *)

(** [this.axios]: [axios.create({ timeout: timeoutMs })] with axios-retry
    installed with [{ retries, retryCondition, retryDelay }]. *)
Record AxiosInstance : Type := mkAxiosInstance {
  inst_timeout : Z;
  inst_retry : RetryConfig
}.

Definition constructor_instance (env : string -> option string)
    (Number : string -> Z) : AxiosInstance :=
  mkAxiosInstance (env_num env Number "HTTP_TIMEOUT_MS" 6000)
                  (constructor_retry env Number).

(** [String.prototype.toLowerCase] on ASCII text. *)
Definition ascii_lower (c : Ascii.ascii) : Ascii.ascii :=
  let n := Ascii.nat_of_ascii c in
  if ((65 <=? n)%nat && (n <=? 90)%nat)%bool then Ascii.ascii_of_nat (n + 32) else c.

Fixpoint to_lower (s : string) : string :=
  match s with
  | EmptyString => EmptyString
  | String c s' => String (ascii_lower c) (to_lower s')
  end.

(** The method axios sends:
    [config.method = (config.method || this.defaults.method || 'get').toLowerCase()]
    after [mergeConfig(this.defaults, { method, ..., ...config })]. A
    [method] in the caller's config replaces the one of [doAxios];
    [undefined] or [''] give ['get'] (the instance has no default
    method). HTTP method names are ASCII tokens. *)
Definition effective_method (args : DoAxiosArgs) : string :=
  match arg_config args with
  | Some c =>
      match config_req_method c with
      | Absent => method_lower (arg_method args)
      | Undef => "get"
      | Val s => if bool_decide (s = "") then "get" else to_lower s
      end
  | None => method_lower (arg_method args)
  end.

(** The request timeout after [{ timeout: timeoutMs, ...config }] and
    [mergeConfig]: a [timeout] in the caller's config wins; one set to
    [undefined] falls back to the instance's [timeout]. *)
Definition effective_timeout (inst : AxiosInstance) (args : DoAxiosArgs) : Z :=
  match arg_config args with
  | Some c =>
      match config_timeout c with
      | Absent => arg_timeoutMs args
      | Undef => inst_timeout inst
      | Val t => t
      end
  | None => arg_timeoutMs args
  end.

(** [config['axios-retry']] of the request. *)
Definition retry_options_of (args : DoAxiosArgs) : AxiosRetryOptions :=
  match arg_config args ≫= config_axios_retry with
  | Some o => o
  | None => no_retry_options
  end.

(** ** axios-retry's state of a request *)

(** [currentState] of axios-retry's [setCurrentState]:
    [{ ...DEFAULT_OPTIONS, ...defaultOptions, ...config['axios-retry'] }]
    and [retryCount = currentState.retryCount || 0]. DEFAULT_OPTIONS give
    [shouldResetTimeout: false], no-op [onRetry] and
    [onMaxRetryTimeExceeded] and [validateResponse: null]; the
    constructor's options give [retries], [retryCondition] (shouldRetry)
    and [retryDelay]. [None] stands for [undefined]. The delay function
    also receives the [Math.random()] sample that the constructor's
    callback draws (a caller's callback ignores it). The state is merged
    on the first attempt and written back to [config['axios-retry']], so
    later attempts keep it. *)
Record RetryState : Type := mkRetryState {
  rs_retries : option Z;
  rs_retryCondition : option (AxiosError -> bool);
  rs_retryDelay : option (Z -> AxiosError -> Q -> Z);
  rs_shouldResetTimeout : bool;
  rs_onRetry : option (Z -> AxiosError -> option string);
  rs_onMaxRetryTimeExceeded : option (AxiosError -> Z -> option string);
  rs_validateResponse : option (HttpResponse -> bool);
  rs_retryCount : Z
}.

(** One key of an object spread over a default. *)
Definition spread {A} (f : Field A) (d : option A) : option A :=
  match f with Absent => d | Undef => None | Val a => Some a end.

Definition retry_state (cfg : RetryConfig) (o : AxiosRetryOptions) : RetryState :=
  mkRetryState
    (spread (ar_retries o) (Some (retries cfg)))
    (spread (ar_retryCondition o) (Some shouldRetry))
    (match ar_retryDelay o with
     | Absent => Some (fun rc _ random =>
                         retryDelay (baseDelayMs cfg) (maxDelayMs cfg) rc random)
     | Undef => None
     | Val f => Some (fun rc e _ => f rc e)
     end)
    (match ar_shouldResetTimeout o with Val b => b | _ => false end)
    (spread (ar_onRetry o) (Some (fun _ _ => None)))
    (spread (ar_onMaxRetryTimeExceeded o) (Some (fun _ _ => None)))
    (match ar_validateResponse o with Val f => Some f | _ => None end)
    (match ar_retryCount o with Val k => k | _ => 0 end).

(** The [validateStatus] settle uses: axios-retry's request interceptor
    sets [() => false] when [validateResponse] is set; otherwise the
    caller's key wins over axios' default ([mergeDirectKeys]). *)
Definition effective_validateStatus (rs : RetryState) (args : DoAxiosArgs)
  : option (Z -> bool) :=
  match rs_validateResponse rs with
  | Some _ => Some (fun _ => false)
  | None =>
      match arg_config args with
      | Some c =>
          match config_validateStatus c with
          | Absent => Some default_validateStatus
          | Undef => None
          | Val f => Some f
          end
      | None => Some default_validateStatus
      end
  end.

(** The retries left before the retry test [retryCount < retries] fails. *)
Definition retry_fuel (rs : RetryState) : nat :=
  match rs_retries rs with
  | Some R => Z.to_nat (R - rs_retryCount rs)
  | None => O
  end.

(** ** The axios-retry loop behind [this.axios.request] *)

Section RetryLoop.
Variable rs : RetryState.
(** The request's method and [validateStatus]. *)
Variable meth : string.
Variable vs : option (Z -> bool).
(** [transport n timeout]: the exchange of the attempt with index [n]
    (0 for the first) under the request timeout [timeout], and the time
    it took in ms. *)
Variable transport : nat -> Z -> Exchange * Z.
(** [rnd n]: the [Math.random()] sample drawn by [retryDelay] after
    attempt [n]. *)
Variable rnd : nat -> Q.

(** axios-retry's [shouldRetry]:
    [retryCount < retries && retryCondition(error)]; [None] when it
    throws (a [retryCondition] set to [undefined]). [rc < undefined] is
    false. *)
Definition retry_decision (rc : Z) (err : AxiosError) : option bool :=
  match rs_retries rs with
  | None => Some false
  | Some R =>
      if rc <? R then option_map (fun c => c err) (rs_retryCondition rs)
      else Some false
  end.

(** Not retrying: [handleMaxRetryTimesExceeded] awaits
    [onMaxRetryTimeExceeded(error, retryCount)] when
    [retryCount >= retries], then the error is rejected. *)
Definition handleMaxRetryTimesExceeded (rc : Z) (err : AxiosError) : HttpResponse + Rejection :=
  if match rs_retries rs with Some R => R <=? rc | None => false end then
    match rs_onMaxRetryTimeExceeded rs with
    | None => inr (RejThrown "TypeError: onMaxRetryTimeExceeded is not a function")
    | Some f =>
        match f err rc with
        | Some why => inr (RejThrown why)
        | None => inr (RejAxios err)
        end
    end
  else inr (RejAxios err).

(** [error.response && currentState.validateResponse?.(error.response)]:
    the response is then returned as a success. *)
Definition validated (x : Exchange) : option HttpResponse :=
  match x, rs_validateResponse rs with
  | Responded r, Some f => if f r then Some r else None
  | _, _ => None
  end.

(** One attempt and axios-retry's response error handler. On a retry
    ([handleRetry]): [retryCount += 1]; [delay = retryDelay(retryCount,
    error)]; unless [shouldResetTimeout], with [config.timeout] non-zero
    the next attempt's timeout becomes
    [config.timeout - lastRequestDuration - delay] and the error is
    rejected if that is [<= 0]; then [onRetry] is awaited and the request
    sent again after [delay] ms. The result is the outcome, the number of
    attempts made (counting the [n] before) and the delays computed for
    the retries made (the wait, unless the request's signal aborts).
    [fuel] bounds the recursion: [doAxios] starts it at
    [retries - retryCount], so the retry test fails before the fuel runs
    out (see [retry_loop_fuel_enough]); the [O] branch does what the code
    does when the test fails. *)
Fixpoint retry_loop (fuel : nat) (rc timeout : Z) (n : nat)
  : (HttpResponse + Rejection) * nat * list Z :=
  let '(x, duration) := transport n timeout in
  match settle meth vs x with
  | inl res => (inl res, S n, [])
  | inr err =>
      match validated x with
      | Some res => (inl res, S n, [])
      | None =>
          match retry_decision rc err with
          | None =>
              (inr (RejThrown "TypeError: retryCondition is not a function"), S n, [])
          | Some false => (handleMaxRetryTimesExceeded rc err, S n, [])
          | Some true =>
              match fuel with
              | O => (handleMaxRetryTimesExceeded rc err, S n, [])
              | S fuel' =>
                  match rs_retryDelay rs with
                  | None =>
                      (inr (RejThrown "TypeError: retryDelay is not a function"), S n, [])
                  | Some f =>
                      let delay := f (rc + 1) err (rnd n) in
                      let next :=
                        if negb (rs_shouldResetTimeout rs) && negb (timeout =? 0)
                        then (if timeout - duration - delay <=? 0 then None
                              else Some (timeout - duration - delay))
                        else Some timeout in
                      match next with
                      | None => (inr (RejAxios err), S n, [])
                      | Some t' =>
                          match match rs_onRetry rs with
                                | None => Some "TypeError: onRetry is not a function"
                                | Some g => g (rc + 1) err
                                end with
                          | Some why => (inr (RejThrown why), S n, [])
                          | None =>
                              let '(r, k, ds) := retry_loop fuel' (rc + 1) t' (S n) in
                              (r, k, delay :: ds)
                          end
                      end
                  end
              end
          end
      end
  end.
End RetryLoop.

(** What axios receives from [doAxios]:
    [{ method, url, data, timeout: timeoutMs, ...config, headers }]. *)
Definition sent_request (inst : AxiosInstance) (args : DoAxiosArgs)
  : string * string * JsVal * option AxiosRequestConfig * Z :=
  (effective_method args, arg_url args, arg_data args, arg_config args,
   effective_timeout inst args).

(** Registry counters: one id and one [created] entry per stored key. *)
Definition registry_count (st : ClientState) : Prop :=
  next_id st = size (breakers st) /\ length (created st) = size (breakers st).

(** [HttpClient.doAxios]: [this.axios.request(...)] through axios-retry,
    then [{ status, data, headers }] of the response. *)
Definition doAxios (inst : AxiosInstance)
    (transport : DoAxiosArgs -> nat -> Z -> Exchange * Z) (rnd : nat -> Q)
    (args : DoAxiosArgs) : (HttpResponse + Rejection) * nat * list Z :=
  let rs := retry_state (inst_retry inst) (retry_options_of args) in
  retry_loop rs (effective_method args) (effective_validateStatus rs args)
    (transport args) rnd (retry_fuel rs) (rs_retryCount rs)
    (effective_timeout inst args) 0.

(** ** Service key and [request] *)

(** [HttpClient.deriveServiceKey]: [new URL(url).hostname], or
    ["default"] when the constructor throws. [parseURL] is the WHATWG
    URL parser ([None] when it throws). *)
Definition deriveServiceKey (parseURL : string -> option URLRecord)
    (url : string) : string :=
  match parseURL url with
  | Some u => hostname u
  | None => "default"
  end.

Section Client.
Variable env : string -> option string.
Variable Number : string -> Z.
Variable parseURL : string -> option URLRecord.
Variable transport : DoAxiosArgs -> nat -> Z -> Exchange * Z.
Variable rnd : nat -> Q.
(** [breaker.fire(args)] of the opossum breaker, whose action is
    [this.doAxios(args)]: it resolves with the action's response or
    rejects (with the action's error, or its own when open or timed
    out). opossum's state machine is not part of this repository, so the
    breaker path is kept abstract: nothing below depends on what [fire]
    does. *)
Variable fire : CircuitBreaker -> DoAxiosArgs -> HttpResponse + CallError.

(** [HttpClient.request]: the caller gets [res.data]. *)
Definition request (st : ClientState) (method : HttpMethod) (url : string)
    (d : JsVal) (config : option AxiosRequestConfig)
    (opts : option HttpClientOptions) : (JsVal + CallError) * ClientState :=
  let mergedOpts := mergeOptions env Number opts in
  let serviceKey := deriveServiceKey parseURL url in
  let args := mkDoAxiosArgs method url d config (timeoutMs mergedOpts) in
  if enabled (breaker mergedOpts) then
    let '(b, st') := getOrCreateBreaker st serviceKey mergedOpts in
    match fire b args with
    | inl res => (inl (data res), st')
    | inr e => (inr e, st')
    end
  else
    let '(r, _, _) := doAxios (constructor_instance env Number) transport rnd args in
    match r with
    | inl res => (inl (data res), st)
    | inr (RejAxios e) => (inr (AxiosErr e), st)
    | inr (RejThrown why) => (inr (OtherErr why), st)
    end.

(** The public API. *)
Definition get (st : ClientState) url config opts :=
  request st GET url JUndefined config opts.
Definition post (st : ClientState) url d config opts :=
  request st POST url d config opts.
Definition put (st : ClientState) url d config opts :=
  request st PUT url d config opts.
Definition patch (st : ClientState) url d config opts :=
  request st PATCH url d config opts.
Definition delete (st : ClientState) url config opts :=
  request st DELETE url JUndefined config opts.

(** Successive calls on one [HttpClient] instance, threading its state. *)
Fixpoint request_all (st : ClientState)
    (calls : list (HttpMethod * string * JsVal * option AxiosRequestConfig *
                   option HttpClientOptions)) : ClientState :=
  match calls with
  | [] => st
  | (m, u, d, c, o) :: rest => request_all (request st m u d c o).2 rest
  end.
End Client.

(** ** Concrete inputs used below *)

(** The scenario transport: 503 on the first two attempts, then 200,
    each exchange taking no time. *)
Definition flaky_503_transport (args : DoAxiosArgs) (n : nat) (t : Z)
  : Exchange * Z :=
  (if (n <? 2)%nat then Responded (mkResponse 503 JNull [])
   else Responded (mkResponse 200 JNull []), 0).

(** Every constructed breaker is the one stored under its key. *)
Definition registry_inv (st : ClientState) : Prop :=
  forall b, In b (created st) -> breakers st !! breaker_key b = Some b.

(** Every stored breaker sits under its own key with an identity below
    [next_id], and different keys hold different objects. *)
Definition registry_wf (st : ClientState) : Prop :=
  (forall k b, breakers st !! k = Some b ->
     breaker_key b = k /\ (breaker_id b < next_id st)%nat) /\
  (forall k1 k2 b1 b2, breakers st !! k1 = Some b1 -> breakers st !! k2 = Some b2 ->
     k1 <> k2 -> breaker_id b1 <> breaker_id b2).

(** A URL parser that knows two absolute URLs and rejects the rest. *)
Definition sample_parseURL (u : string) : option URLRecord :=
  if bool_decide (u = "http://catalog-service:3001/products")
  then Some (mkURL "catalog-service")
  else if bool_decide (u = "http://order-service:3002/orders")
  then Some (mkURL "order-service")
  else None.

Definition sample_calls
  : list (HttpMethod * string * JsVal * option AxiosRequestConfig *
          option HttpClientOptions) :=
  [(GET, "http://catalog-service:3001/products", JUndefined, None, None);
   (POST, "http://order-service:3002/orders", JNull, None, None);
   (GET, "http://catalog-service:3001/products", JUndefined, None, None)].

Definition open_fire (b : CircuitBreaker) (args : DoAxiosArgs)
  : HttpResponse + CallError :=
  inr (BreakerErr "Breaker is open").

Definition sample_options (t : Z) : MergedOptions :=
  mkMergedOptions 6000 (mkRetryConfig 2 250 1500)
    (mkBreakerConfig true t 50 10000 10000 10).

Definition no_env : string -> option string := fun _ => None.

Definition options_breaker_off : HttpClientOptions :=
  mkHttpClientOptions None None
    (Some (mkBreakerOptions (Some false) None None None None None)).

Definition answer_200 (args : DoAxiosArgs) (n : nat) (t : Z) : Exchange * Z :=
  (Responded (mkResponse 200 (JNum 42) [("content-type", JStr "application/json")]), 5).

(** The error axios raises for a 500 answer to a request with method [m]. *)
Definition error_500 (m : HttpMethod) : AxiosError :=
  mkAxiosError (Some "ERR_BAD_RESPONSE") (Some 500) (Some (method_lower m)).

Definition always_500 (args : DoAxiosArgs) (n : nat) (t : Z) : Exchange * Z :=
  (Responded (mkResponse 500 JNull []), 0).

Definition options_breaker_off_args (m : HttpMethod) : DoAxiosArgs :=
  mkDoAxiosArgs m "http://order-service:3002/orders" JNull None 6000.

(** An environment with [HTTP_RETRY_COUNT="-1"], and [Number] on it. *)
Definition env_negative_retries (k : string) : option string :=
  if bool_decide (k = "HTTP_RETRY_COUNT") then Some "-1" else None.

Definition Number_minus_one (s : string) : Z :=
  if bool_decide (s = "-1") then -1 else 0.

(** A caller config that leaves the request as [doAxios] builds it, apart
    from a possible [timeout]: no [method], no [validateStatus], no
    per-request axios-retry options. No config at all is one. *)
Definition plain_config (c : option AxiosRequestConfig) : Prop :=
  match c with
  | None => True
  | Some c =>
      config_req_method c = Absent /\ config_validateStatus c = Absent /\
      config_axios_retry c = None
  end.

(** The time taken by the first [k] attempts. *)
Fixpoint dur_sum (dur : nat -> Z) (k : nat) : Z :=
  match k with
  | O => 0
  | S k' => dur_sum dur k' + dur k'
  end.

(** axios' outcome of one exchange as the promise of
    [this.axios.request] settles with it. *)
Definition to_rejection (x : HttpResponse + AxiosError) : HttpResponse + Rejection :=
  match x with
  | inl r => inl r
  | inr e => inr (RejAxios e)
  end.

(** An axios-retry state whose callbacks are the defaults: no
    [validateResponse], a [retryCondition] and a [retryDelay] that are
    functions, [onRetry] and [onMaxRetryTimeExceeded] that return
    normally. *)
Definition quiet (rs : RetryState) : Prop :=
  rs_validateResponse rs = None /\
  (exists c, rs_retryCondition rs = Some c) /\
  (exists f, rs_retryDelay rs = Some f) /\
  (exists g, rs_onRetry rs = Some g /\ forall rc e, g rc e = None) /\
  (exists h, rs_onMaxRetryTimeExceeded rs = Some h /\ forall e rc, h e rc = None).

(** A request whose caller config asks axios-retry for five retries. *)
Definition five_retries_args (m : HttpMethod) : DoAxiosArgs :=
  mkDoAxiosArgs m "http://order-service:3002/orders" JNull
    (Some (mkAxiosRequestConfig Absent Absent Absent
             (Some (mkAxiosRetryOptions (Val 5) Absent Absent Absent Absent
                      Absent Absent Absent))))
    6000.

(** * Sanity checks on concrete inputs *)

Example settle_get_500 :
  settle "get" (Some default_validateStatus) (Responded (mkResponse 500 JNull [])) =
  inr (mkAxiosError (Some "ERR_BAD_RESPONSE") (Some 500) (Some "get")).
Proof. reflexivity. Qed.

Example shouldRetry_get_500 :
  shouldRetry (mkAxiosError (Some "ERR_BAD_RESPONSE") (Some 500) (Some "get")) = true.
Proof. reflexivity. Qed.

Example shouldRetry_post_500 :
  shouldRetry (mkAxiosError (Some "ERR_BAD_RESPONSE") (Some 500) (Some "post")) = false.
Proof. reflexivity. Qed.

Example shouldRetry_post_503 :
  shouldRetry (mkAxiosError (Some "ERR_BAD_RESPONSE") (Some 503) (Some "post")) = true.
Proof. reflexivity. Qed.

Example shouldRetry_timeout :
  shouldRetry (mkAxiosError (Some "ECONNABORTED") None (Some "get")) = false.
Proof. reflexivity. Qed.

Example shouldRetry_refused :
  shouldRetry (mkAxiosError (Some "ECONNREFUSED") None (Some "post")) = true.
Proof. reflexivity. Qed.

Example retryDelay_first :
  retryDelay 100 800 1 (1/2)%Q = 150.
Proof. reflexivity. Qed.

(** * Retry policy *)

Lemma retryable_status_iff (s : Z) :
  ((s =? 429) || ((500 <=? s) && (s <=? 599))) = true <->
  s = 429 \/ 500 <= s <= 599.
Proof.
  rewrite orb_true_iff, andb_true_iff, Z.eqb_eq, !Z.leb_le. tauto.
Qed.

Lemma in_Z_iff (s : Z) (l : list Z) : in_Z s l = true <-> s ∈ l.
Proof. unfold in_Z. apply bool_decide_eq_true. Qed.

Lemma settle_code_not_aborted (s : Z) :
  bool_decide ((if s / 100 =? 4 then Some "ERR_BAD_REQUEST"
                else if s / 100 =? 5 then Some "ERR_BAD_RESPONSE"
                else None) = Some "ECONNABORTED") = false.
Proof.
  apply bool_decide_eq_false.
  destruct (s / 100 =? 4), (s / 100 =? 5); discriminate.
Qed.

(** C1 (refuted). The claim: [shouldRetry e] holds exactly when [e] has
    no response (connectivity or timeout) or its status is one of
    429, 502, 503, 504. A GET answered with 500 is retried. *)
Lemma shouldRetry_claim_counterexample :
  ~ (forall e : AxiosError,
       shouldRetry e = true <->
       (response_status e = None \/
        exists s, response_status e = Some s /\ s ∈ [429; 502; 503; 504])).
Proof.
  intros H.
  pose proof (H (mkAxiosError (Some "ERR_BAD_RESPONSE") (Some 500) (Some "get")))
    as [H1 _].
  destruct (H1 eq_refl) as [Hn | [s [Hs Hin]]]; [discriminate |].
  injection Hs as <-. revert Hin. vm_compute. set_solver.
Qed.

(** C1 (amended). For an error axios raises for a request with method
    [m] under the default [validateStatus]
    ([settle (method_lower m) (Some default_validateStatus) x = inr e]),
    other than an axios timeout: a received response is retried exactly
    when its status is 429, 502, 503 or 504, or when [m] is idempotent
    (GET, PUT, DELETE) and the status is a 5xx; so a 4xx other than 429
    is never retried, and a 500 is retried for GET, PUT and DELETE only.
    A failure without response with code [c] is retried exactly when [c]
    is not [ERR_CANCELED] and not on is-retry-allowed's deny list, or
    when [m] is idempotent. *)
Theorem shouldRetry_spec (m : HttpMethod) (x : Exchange) (e : AxiosError)
    (H : settle (method_lower m) (Some default_validateStatus) x = inr e)
    (Hnt : x <> Failed "ECONNABORTED") :
  shouldRetry e = true <->
  match x with
  | Responded r =>
      status r ∈ [429; 502; 503; 504] \/
      ((m = GET \/ m = PUT \/ m = DELETE) /\ 500 <= status r <= 599)
  | Failed c =>
      (c <> "ERR_CANCELED" /\ c ∉ retry_deny_list) \/
      (m = GET \/ m = PUT \/ m = DELETE)
  end.
Proof.
  destruct x as [r | c]; simpl in H.
  - destruct (_ || _); [discriminate |].
    injection H as <-.
    unfold shouldRetry, isNetworkOrIdempotentRequestError, isNetworkError,
      isIdempotentRequestError, isRetryableError; simpl.
    rewrite settle_code_not_aborted; simpl.
    rewrite <- in_Z_iff.
    assert (H429 : status r = 429 -> in_Z (status r) [429; 502; 503; 504] = true)
      by (intros ->; reflexivity).
    generalize dependent (status r); intros s H429.
    destruct (in_Z s [429; 502; 503; 504]);
    destruct (Z.eqb_spec s 429), (Z.leb_spec 500 s), (Z.leb_spec s 599);
    destruct m; cbv -[Z.le Z.lt Z.eqb Z.leb]; intuition (try congruence; try lia).
  - injection H as <-.
    assert (Hc : c <> "ECONNABORTED") by congruence.
    unfold shouldRetry, isNetworkOrIdempotentRequestError, isNetworkError,
      isIdempotentRequestError, isRetryableError, isRetryAllowed, in_strings;
      simpl.
    rewrite (bool_decide_eq_false_2 (Some c = Some "ECONNABORTED"))
      by congruence.
    case_bool_decide as Hl; case_bool_decide as Hd;
    destruct m; simpl; rewrite ?orb_true_r; intuition (try congruence);
    try set_solver.
    all: revert H0; vm_compute; intuition congruence.
Qed.

(** Witness: a GET answered with 500. *)
Lemma shouldRetry_spec_witness :
  (settle (method_lower GET) (Some default_validateStatus)
     (Responded (mkResponse 500 JNull [])) =
     inr (mkAxiosError (Some "ERR_BAD_RESPONSE") (Some 500) (Some "get")) /\
   Responded (mkResponse 500 JNull []) <> Failed "ECONNABORTED") /\
  (shouldRetry (mkAxiosError (Some "ERR_BAD_RESPONSE") (Some 500) (Some "get"))
     = true <->
   500 ∈ [429; 502; 503; 504] \/
   ((GET = GET \/ GET = PUT \/ GET = DELETE) /\ 500 <= 500 <= 599)).
Proof.
  assert (H1 : settle (method_lower GET) (Some default_validateStatus)
                 (Responded (mkResponse 500 JNull [])) =
               inr (mkAxiosError (Some "ERR_BAD_RESPONSE") (Some 500) (Some "get")))
    by reflexivity.
  assert (H2 : Responded (mkResponse 500 JNull []) <> Failed "ECONNABORTED")
    by discriminate.
  split; [split; [exact H1 | exact H2] |].
  exact (shouldRetry_spec GET (Responded (mkResponse 500 JNull [])) _ H1 H2).
Defined.

(** * Backoff delay *)

Lemma jitter_range (random : Q) :
  (0 <= random < 1)%Q -> 0 <= Qfloor (random * 100) < 100.
Proof.
  intros [H0 H1]. split.
  - change 0%Z with (Qfloor 0). apply Qfloor_resp_le.
    rewrite <- (Qmult_0_l 100). apply Qmult_le_compat_r; [exact H0 | discriminate].
  - assert (Hlt : (random * 100 < 100)%Q).
    { rewrite <- (Qmult_1_l 100) at 2.
      apply Qmult_lt_compat_r; [reflexivity | exact H1]. }
    rewrite Zlt_Qlt.
    apply (Qle_lt_trans _ (random * 100)); [apply Qfloor_le | exact Hlt].
Qed.

(** The jitter takes the value [k] exactly on the sub-interval
    [[k/100, (k+1)/100)] of the samples. *)
Lemma jitter_value (random : Q) (k : Z) :
  Qfloor (random * 100) = k <->
  (inject_Z k <= random * 100 < inject_Z (k + 1))%Q.
Proof.
  split.
  - intros <-. split; [apply Qfloor_le | apply Qlt_floor].
  - intros [Hlo Hhi].
    assert (k <= Qfloor (random * 100))%Z.
    { rewrite <- (Qfloor_Z k). apply Qfloor_resp_le. exact Hlo. }
    assert (Qfloor (random * 100) < k + 1)%Z.
    { rewrite Zlt_Qlt.
      apply (Qle_lt_trans _ (random * 100)); [apply Qfloor_le | exact Hhi]. }
    lia.
Qed.

(** A config that leaves the request to the instance and axios-retry
    defaults runs the loop with the constructor's options. *)
Lemma plain_doAxios (inst : AxiosInstance)
    (transport : DoAxiosArgs -> nat -> Z -> Exchange * Z) (rnd : nat -> Q)
    (args : DoAxiosArgs) (Hp : plain_config (arg_config args)) :
  doAxios inst transport rnd args =
  retry_loop (retry_state (inst_retry inst) no_retry_options)
    (method_lower (arg_method args)) (Some default_validateStatus)
    (transport args) rnd (Z.to_nat (retries (inst_retry inst))) 0
    (effective_timeout inst args) 0.
Proof.
  unfold doAxios, retry_options_of, effective_method, effective_validateStatus.
  destruct (arg_config args) as [c |]; simpl in Hp |- *;
    [destruct Hp as (-> & -> & ->) |]; unfold retry_fuel; simpl;
    rewrite Z.sub_0_r; reflexivity.
Qed.

Lemma flaky_503_run (cfg_args : DoAxiosArgs) (rnd : nat -> Q)
    (Hrnd : forall k, (0 <= rnd k < 1)%Q)
    (Hp : plain_config (arg_config cfg_args))
    (Ht : effective_timeout (mkAxiosInstance 6000 (mkRetryConfig 2 100 800))
            cfg_args = 6000) :
  doAxios (mkAxiosInstance 6000 (mkRetryConfig 2 100 800)) flaky_503_transport
    rnd cfg_args =
  (inl (mkResponse 200 JNull []), 3%nat,
   [100 + Qfloor (rnd 0%nat * 100); 200 + Qfloor (rnd 1%nat * 100)]).
Proof.
  rewrite (plain_doAxios _ _ _ _ Hp), Ht.
  pose proof (jitter_range _ (Hrnd 0%nat)) as H0.
  pose proof (jitter_range _ (Hrnd 1%nat)) as H1.
  change (Z.to_nat (retries (inst_retry (mkAxiosInstance 6000 (mkRetryConfig 2 100 800)))))
    with 2%nat.
  remember (Qfloor (rnd 0%nat * 100)) as j0.
  remember (Qfloor (rnd 1%nat * 100)) as j1.
  assert (E0 : retryDelay 100 800 (0 + 1) (rnd 0%nat) = 100 + j0)
    by (subst; reflexivity).
  assert (E1 : retryDelay 100 800 (0 + 1 + 1) (rnd 1%nat) = 200 + j1)
    by (subst; reflexivity).
  destruct (arg_method cfg_args); simpl; rewrite ?E0, ?E1;
  repeat match goal with
  | |- context [Z.leb ?a ?b] => destruct (Z.leb_spec a b); [lia |]
  | |- context [Z.eqb ?a ?b] => destruct (Z.eqb_spec a b); [lia |]
  end; reflexivity.
Qed.

(** C2. For attempt [n >= 2] (axios-retry's [retryCount] is [n - 1]:
    the retry that starts attempt [n]), the delay is
    [min(maxDelayMs, baseDelayMs * 2^(n-2))] plus a jitter in
    [[0, 100)] whose value [k] is taken on the sub-interval
    [[k/100, (k+1)/100)] of the [Math.random()] sample (uniform
    integer jitter 0..99). In the scenario baseDelay=100, maxDelay=800,
    two retries, 503 twice then 200 (a request whose config sets at most
    its [timeout], with a 6000 ms timeout): three attempts, success, and
    the two sleeps are [100 + jitter] then [200 + jitter]. *)
Theorem retryDelay_backoff (baseDelayMs maxDelayMs n : Z) (random : Q)
    (Hn : 2 <= n) (Hr : (0 <= random < 1)%Q) :
  retryDelay baseDelayMs maxDelayMs (n - 1) random =
    Z.min maxDelayMs (baseDelayMs * 2 ^ (n - 2)) + Qfloor (random * 100) /\
  0 <= Qfloor (random * 100) < 100 /\
  (forall k, Qfloor (random * 100) = k <->
             (inject_Z k <= random * 100 < inject_Z (k + 1))%Q) /\
  (forall (args : DoAxiosArgs) (rnd : nat -> Q),
     (forall k, (0 <= rnd k < 1)%Q) -> plain_config (arg_config args) ->
     effective_timeout (mkAxiosInstance 6000 (mkRetryConfig 2 100 800)) args = 6000 ->
     doAxios (mkAxiosInstance 6000 (mkRetryConfig 2 100 800)) flaky_503_transport
       rnd args =
     (inl (mkResponse 200 JNull []), 3%nat,
      [100 + Qfloor (rnd 0%nat * 100); 200 + Qfloor (rnd 1%nat * 100)])).
Proof.
  split; [| split; [| split]].
  - unfold retryDelay; cbv zeta. replace (n - 1 - 1) with (n - 2) by lia. reflexivity.
  - apply jitter_range, Hr.
  - intros k. apply jitter_value.
  - intros args rnd Hrnd Hp Ht. apply flaky_503_run; assumption.
Qed.

Lemma retryDelay_backoff_witness :
  (2 <= 3 /\ (0 <= 1#2 < 1)%Q) /\
  (retryDelay 100 800 (3 - 1) (1#2) =
    Z.min 800 (100 * 2 ^ (3 - 2)) + Qfloor ((1#2) * 100) /\
  0 <= Qfloor ((1#2) * 100) < 100 /\
  (forall k, Qfloor ((1#2) * 100) = k <->
             (inject_Z k <= (1#2) * 100 < inject_Z (k + 1))%Q) /\
  (forall (args : DoAxiosArgs) (rnd : nat -> Q),
     (forall k, (0 <= rnd k < 1)%Q) -> plain_config (arg_config args) ->
     effective_timeout (mkAxiosInstance 6000 (mkRetryConfig 2 100 800)) args = 6000 ->
     doAxios (mkAxiosInstance 6000 (mkRetryConfig 2 100 800)) flaky_503_transport
       rnd args =
     (inl (mkResponse 200 JNull []), 3%nat,
      [100 + Qfloor (rnd 0%nat * 100); 200 + Qfloor (rnd 1%nat * 100)]))).
Proof.
  assert (H : 2 <= 3 /\ (0 <= 1#2 < 1)%Q)
    by (split; [lia | split; [unfold Qle; simpl; lia | unfold Qlt; simpl; lia]]).
  split; [exact H |].
  exact (retryDelay_backoff 100 800 3 (1#2) (proj1 H) (proj2 H)).
Defined.

(** C9 (refuted). The claim: for a fixed configuration the realized delay
    (with its sampled jitter) never decreases from one retry to the next.
    With baseDelay 10 and maxDelay 1500, a first retry sampling 0.99
    sleeps 109 ms and a second retry sampling 0 sleeps 20 ms. *)
Lemma retryDelay_realized_not_monotone :
  ~ (forall (baseDelayMs maxDelayMs rc : Z) (r1 r2 : Q),
       1 <= rc -> (0 <= r1 < 1)%Q -> (0 <= r2 < 1)%Q ->
       retryDelay baseDelayMs maxDelayMs rc r1 <=
       retryDelay baseDelayMs maxDelayMs (rc + 1) r2).
Proof.
  intros H.
  assert (Hr1 : (0 <= 99#100 < 1)%Q) by (split; [unfold Qle; simpl; lia | unfold Qlt; simpl; lia]).
  assert (Hr2 : (0 <= 0 < 1)%Q) by (split; [unfold Qle; simpl; lia | unfold Qlt; simpl; lia]).
  pose proof (H 10 1500 1 (99#100) 0%Q ltac:(lia) Hr1 Hr2) as Hle.
  vm_compute in Hle. apply Hle. reflexivity.
Qed.

(** C9 (amended). For a non-negative base delay, the exponential part of
    the delay (the delay at jitter 0) is non-decreasing in the retry
    number and capped by maxDelay; the realized delay exceeds it by less
    than 100 ms, so it is always below [maxDelay + 100]. *)
Theorem retryDelay_monotone_bounded (baseDelayMs maxDelayMs : Z)
    (Hb : 0 <= baseDelayMs) :
  (forall rc rc', 1 <= rc <= rc' ->
     retryDelay baseDelayMs maxDelayMs rc 0 <=
     retryDelay baseDelayMs maxDelayMs rc' 0 <= maxDelayMs) /\
  (forall rc (random : Q), (0 <= random < 1)%Q ->
     retryDelay baseDelayMs maxDelayMs rc 0 <=
       retryDelay baseDelayMs maxDelayMs rc random <
       retryDelay baseDelayMs maxDelayMs rc 0 + 100 /\
     retryDelay baseDelayMs maxDelayMs rc random < maxDelayMs + 100).
Proof.
  assert (E0 : forall rc, retryDelay baseDelayMs maxDelayMs rc 0 =
                          Z.min maxDelayMs (baseDelayMs * 2 ^ (rc - 1))).
  { intros rc. unfold retryDelay. change (Qfloor (0 * 100)) with 0. lia. }
  split.
  - intros rc rc' Hrc. rewrite !E0.
    assert (2 ^ (rc - 1) <= 2 ^ (rc' - 1))
      by (apply Z.pow_le_mono_r; lia).
    assert (baseDelayMs * 2 ^ (rc - 1) <= baseDelayMs * 2 ^ (rc' - 1))
      by (apply Z.mul_le_mono_nonneg_l; lia).
    lia.
  - intros rc random Hr. rewrite E0.
    pose proof (jitter_range random Hr).
    unfold retryDelay. lia.
Qed.

Lemma retryDelay_monotone_bounded_witness :
  0 <= 250 /\
  ((forall rc rc', 1 <= rc <= rc' ->
     retryDelay 250 1500 rc 0 <= retryDelay 250 1500 rc' 0 <= 1500) /\
   (forall rc (random : Q), (0 <= random < 1)%Q ->
     retryDelay 250 1500 rc 0 <= retryDelay 250 1500 rc random <
       retryDelay 250 1500 rc 0 + 100 /\
     retryDelay 250 1500 rc random < 1500 + 100)).
Proof.
  split; [lia |].
  exact (retryDelay_monotone_bounded 250 1500 ltac:(lia)).
Defined.

(** * Breaker registry *)

Lemma registry_inv_initial : registry_inv initial_state.
Proof. intros b []. Qed.

Lemma getOrCreateBreaker_inv (st : ClientState) (k : string)
    (o : MergedOptions) :
  registry_inv st -> registry_inv (getOrCreateBreaker st k o).2.
Proof.
  unfold registry_inv, getOrCreateBreaker. intros Hinv.
  destruct (breakers st !! k) as [b0 |] eqn:Hk; simpl; [exact Hinv |].
  intros b [<- | Hb]; simpl.
  - apply lookup_insert_eq.
  - rewrite lookup_insert_ne; [apply Hinv, Hb |].
    intros ->. specialize (Hinv b Hb). congruence.
Qed.

Lemma getOrCreateBreaker_created (st : ClientState) (k : string)
    (o : MergedOptions) :
  registry_inv st ->
  (NoDup (map breaker_key (created st)) ->
   NoDup (map breaker_key (created (getOrCreateBreaker st k o).2))).
Proof.
  unfold registry_inv, getOrCreateBreaker. intros Hinv Hnd.
  destruct (breakers st !! k) as [b0 |] eqn:Hk; simpl; [exact Hnd |].
  constructor; [| exact Hnd].
  intros Hin. apply list_elem_of_In, in_map_iff in Hin as [b [Hkey Hb]].
  specialize (Hinv b Hb). rewrite Hkey in Hinv. congruence.
Qed.

Lemma getOrCreate_all_inv (calls : list (string * MergedOptions)) :
  forall st, registry_inv st -> NoDup (map breaker_key (created st)) ->
  registry_inv (getOrCreate_all st calls) /\
  NoDup (map breaker_key (created (getOrCreate_all st calls))).
Proof.
  induction calls as [| [k o] rest IH]; intros st Hinv Hnd; simpl.
  - split; assumption.
  - apply IH.
    + apply getOrCreateBreaker_inv, Hinv.
    + apply getOrCreateBreaker_created; assumption.
Qed.

(** C5. A second [getOrCreateBreaker] with the same key returns the
    breaker of the first (same object identity) and leaves the state as
    the first call left it; and along any sequence of calls from a
    fresh client, no key ever has two breakers constructed for it. (The
    function is synchronous, so calls of concurrent requests run one at
    a time in the JavaScript event loop, which is what the sequence
    models.) *)
Theorem getOrCreateBreaker_idempotent :
  (forall (st : ClientState) (k : string) (o1 o2 : MergedOptions),
     let '(b1, st1) := getOrCreateBreaker st k o1 in
     getOrCreateBreaker st1 k o2 = (b1, st1)) /\
  (forall calls : list (string * MergedOptions),
     NoDup (map breaker_key (created (getOrCreate_all initial_state calls)))).
Proof.
  split.
  - intros st k o1 o2. unfold getOrCreateBreaker.
    destruct (breakers st !! k) as [b0 |] eqn:Hk.
    + rewrite Hk. reflexivity.
    + simpl. rewrite lookup_insert_eq. reflexivity.
  - intros calls.
    apply getOrCreate_all_inv; [apply registry_inv_initial | constructor].
Qed.

(** C10. When a breaker is already stored under the key, the options
    argument is ignored: the stored breaker is returned with its own
    settings and the state (map, identities, constructed breakers) is
    unchanged, whatever options are passed. *)
Theorem getOrCreateBreaker_existing (st : ClientState) (k : string)
    (b : CircuitBreaker) (Hk : breakers st !! k = Some b) :
  forall o : MergedOptions, getOrCreateBreaker st k o = (b, st).
Proof.
  intros o. unfold getOrCreateBreaker. rewrite Hk. reflexivity.
Qed.

Lemma getOrCreateBreaker_existing_witness :
  let st := (getOrCreateBreaker initial_state "catalog" (sample_options 3500)).2 in
  breakers st !! "catalog" =
    Some (mkCircuitBreaker 0 "catalog" (breaker_settings_of (sample_options 3500))) /\
  getOrCreateBreaker st "catalog" (sample_options 100) =
    (mkCircuitBreaker 0 "catalog" (breaker_settings_of (sample_options 3500)), st).
Proof.
  simpl.
  assert (H : <["catalog" := mkCircuitBreaker 0 "catalog"
                  (breaker_settings_of (sample_options 3500))]>
                (∅ : gmap string CircuitBreaker) !! "catalog" =
              Some (mkCircuitBreaker 0 "catalog"
                      (breaker_settings_of (sample_options 3500))))
    by apply lookup_insert_eq.
  split; [exact H |].
  exact (getOrCreateBreaker_existing
           (mkClientState
              (<["catalog" := mkCircuitBreaker 0 "catalog"
                   (breaker_settings_of (sample_options 3500))]> ∅)
              1 [mkCircuitBreaker 0 "catalog"
                   (breaker_settings_of (sample_options 3500))])
           "catalog" _ H (sample_options 100)).
Defined.

(** * Service key *)

(** C8. For any URL parser, [deriveServiceKey] is a function of the URL
    alone; a URL the parser accepts maps to its hostname, one it rejects
    (a relative URL) to ["default"]; equal URLs give equal keys, and two
    parsed URLs with different hostnames give different keys. *)
Theorem deriveServiceKey_spec (parseURL : string -> option URLRecord) :
  (forall url u, parseURL url = Some u ->
     deriveServiceKey parseURL url = hostname u) /\
  (forall url, parseURL url = None -> deriveServiceKey parseURL url = "default") /\
  (forall url1 url2, url1 = url2 ->
     deriveServiceKey parseURL url1 = deriveServiceKey parseURL url2) /\
  (forall url1 url2 u1 u2, parseURL url1 = Some u1 -> parseURL url2 = Some u2 ->
     hostname u1 <> hostname u2 ->
     deriveServiceKey parseURL url1 <> deriveServiceKey parseURL url2).
Proof.
  unfold deriveServiceKey.
  split; [| split; [| split]].
  - intros url u ->. reflexivity.
  - intros url ->. reflexivity.
  - intros url1 url2 ->. reflexivity.
  - intros url1 url2 u1 u2 -> ->. exact id.
Qed.

(** * Options merge *)

(** C4. With no [HTTP_*] variable in the environment, every field of
    [mergeOptions opts] is the caller's value when given and otherwise
    the default: timeout 6000, retries 2, base delay 250, max delay 1500,
    breaker enabled, breaker timeout 3500, error threshold 50, reset
    10000, rolling window 10000, 10 buckets. *)
Theorem mergeOptions_defaults (Number : string -> Z)
    (opts : option HttpClientOptions) :
  let mo := mergeOptions (fun _ => None) Number opts in
  let ro := opts ≫= opt_retry in
  let bo := opts ≫= opt_breaker in
  timeoutMs mo = default 6000 (opts ≫= opt_timeoutMs) /\
  retries (retry mo) = default 2 (ro ≫= opt_retries) /\
  baseDelayMs (retry mo) = default 250 (ro ≫= opt_baseDelayMs) /\
  maxDelayMs (retry mo) = default 1500 (ro ≫= opt_maxDelayMs) /\
  enabled (breaker mo) = default true (bo ≫= opt_enabled) /\
  breaker_timeoutMs (breaker mo) = default 3500 (bo ≫= opt_breaker_timeoutMs) /\
  errorThresholdPercentage (breaker mo) =
    default 50 (bo ≫= opt_errorThresholdPercentage) /\
  resetTimeoutMs (breaker mo) = default 10000 (bo ≫= opt_resetTimeoutMs) /\
  rollingCountTimeoutMs (breaker mo) =
    default 10000 (bo ≫= opt_rollingCountTimeoutMs) /\
  rollingCountBuckets (breaker mo) = default 10 (bo ≫= opt_rollingCountBuckets).
Proof.
  simpl. repeat split;
  repeat match goal with
  | |- context [match ?x with _ => _ end] => destruct x
  end; reflexivity.
Qed.

Example mergeOptions_partial :
  mergeOptions (fun _ => None) (fun _ => 0)
    (Some (mkHttpClientOptions None
             (Some (mkRetryOptions (Some 5) None None))
             (Some (mkBreakerOptions (Some false) None None None None None)))) =
  mkMergedOptions 6000 (mkRetryConfig 5 250 1500)
    (mkBreakerConfig false 3500 50 10000 10000 10).
Proof. reflexivity. Qed.

(** * What the caller receives *)

(** C3 (refuted). The claim: a successful [get] resolves with the whole
    [{status, data, headers}] triple. It resolves with [data] alone. *)
Lemma request_result_not_triple :
  (get no_env (fun _ => 0) (fun _ => None) answer_200 (fun _ => 0%Q)
       (fun _ _ => inr (BreakerErr "unused")) initial_state
       "http://catalog-service:3001/products" None
       (Some options_breaker_off)).1 = inl (JNum 42) /\
  (get no_env (fun _ => 0) (fun _ => None) answer_200 (fun _ => 0%Q)
       (fun _ _ => inr (BreakerErr "unused")) initial_state
       "http://catalog-service:3001/products" None
       (Some options_breaker_off)).1 <>
  inl (response_object
         (mkResponse 200 (JNum 42) [("content-type", JStr "application/json")])).
Proof.
  split; [reflexivity |]. vm_compute. congruence.
Qed.

(** C3 (amended). When [request] (hence [get], [post], [put], [patch],
    [delete]) resolves with [v], [v] is the [data] field of the response
    produced on the path taken: [breaker.fire] when the merged options
    enable the breaker, [doAxios] otherwise; status and headers are
    dropped. *)
Theorem request_resolves_with_data
    (env : string -> option string) (Number : string -> Z)
    (parseURL : string -> option URLRecord)
    (transport : DoAxiosArgs -> nat -> Z -> Exchange * Z) (rnd : nat -> Q)
    (fire : CircuitBreaker -> DoAxiosArgs -> HttpResponse + CallError)
    (st : ClientState) (m : HttpMethod) (url : string) (d : JsVal)
    (config : option AxiosRequestConfig) (opts : option HttpClientOptions)
    (v : JsVal) (st' : ClientState)
    (H : request env Number parseURL transport rnd fire st m url d config opts
         = (inl v, st')) :
  let mo := mergeOptions env Number opts in
  let args := mkDoAxiosArgs m url d config (timeoutMs mo) in
  exists res : HttpResponse,
    v = data res /\
    (if enabled (breaker mo)
     then fire (getOrCreateBreaker st (deriveServiceKey parseURL url) mo).1 args
          = inl res
     else (doAxios (constructor_instance env Number) transport rnd args).1.1
          = inl res).
Proof.
  unfold request in H. cbv zeta in *.
  destruct (enabled (breaker (mergeOptions env Number opts))).
  - destruct (getOrCreateBreaker _ _ _) as [b st1]. simpl.
    destruct (fire b _) as [res | e]; [| discriminate].
    injection H as Hv _. exists res. split; [symmetry; exact Hv | reflexivity].
  - destruct (doAxios _ _ _ _) as [[r k] ds]. simpl.
    destruct r as [res | [e | why]]; [| discriminate | discriminate].
    injection H as Hv _. exists res. split; [symmetry; exact Hv | reflexivity].
Qed.

Lemma request_resolves_with_data_witness :
  request no_env (fun _ => 0) (fun _ => None) answer_200 (fun _ => 0%Q)
    (fun _ _ => inr (BreakerErr "unused")) initial_state GET
    "http://catalog-service:3001/products" JUndefined None
    (Some options_breaker_off) = (inl (JNum 42), initial_state) /\
  exists res : HttpResponse,
    JNum 42 = data res /\
    (if enabled (breaker (mergeOptions no_env (fun _ => 0) (Some options_breaker_off)))
     then (fun _ _ => inr (BreakerErr "unused")) 
            (getOrCreateBreaker initial_state
               (deriveServiceKey (fun _ => None) "http://catalog-service:3001/products")
               (mergeOptions no_env (fun _ => 0) (Some options_breaker_off))).1
            (mkDoAxiosArgs GET "http://catalog-service:3001/products" JUndefined None
               (timeoutMs (mergeOptions no_env (fun _ => 0) (Some options_breaker_off))))
          = inl res
     else (doAxios (constructor_instance no_env (fun _ => 0)) answer_200 (fun _ => 0%Q)
             (mkDoAxiosArgs GET "http://catalog-service:3001/products" JUndefined None
               (timeoutMs (mergeOptions no_env (fun _ => 0) (Some options_breaker_off))))).1.1
          = inl res).
Proof.
  assert (H : request no_env (fun _ => 0) (fun _ => None) answer_200 (fun _ => 0%Q)
    (fun _ _ => inr (BreakerErr "unused")) initial_state GET
    "http://catalog-service:3001/products" JUndefined None
    (Some options_breaker_off) = (inl (JNum 42), initial_state)) by reflexivity.
  split; [exact H |].
  exact (request_resolves_with_data _ _ _ _ _ _ _ _ _ _ _ _ _ _ H).
Defined.

(** * The retry loop *)

Lemma retryDelay_lt_max (base maxd rc : Z) (random : Q) :
  (0 <= random < 1)%Q -> retryDelay base maxd rc random < maxd + 100.
Proof.
  intros Hr. pose proof (jitter_range random Hr). unfold retryDelay. lia.
Qed.

Lemma retry_state_quiet (cfg : RetryConfig) :
  quiet (retry_state cfg no_retry_options).
Proof.
  split; [reflexivity |].
  split; [eexists; reflexivity |].
  split; [eexists; reflexivity |].
  split; exists (fun _ _ => None); split; reflexivity.
Qed.

Lemma settle_500 (m : HttpMethod) (r : HttpResponse) :
  status r = 500 ->
  settle (method_lower m) (Some default_validateStatus) (Responded r) =
  inr (error_500 m).
Proof. intros Hs. unfold settle. rewrite Hs. reflexivity. Qed.

Section LoopFacts.
Variable rs : RetryState.
Variable meth : string.
Variable vs : option (Z -> bool).
Variable tr : nat -> Z -> Exchange * Z.
Variable rnd : nat -> Q.

Lemma quiet_validated (x : Exchange) : quiet rs -> validated rs x = None.
Proof.
  intros [Hv _]. unfold validated. rewrite Hv. destruct x; reflexivity.
Qed.

Lemma quiet_handleMaxRetryTimesExceeded (rc : Z) (err : AxiosError) :
  quiet rs -> handleMaxRetryTimesExceeded rs rc err = inr (RejAxios err).
Proof.
  intros (_ & _ & _ & _ & [h [Hh Hh']]). unfold handleMaxRetryTimesExceeded. rewrite Hh, Hh'.
  destruct (match rs_retries rs with Some R => R <=? rc | None => false end);
    reflexivity.
Qed.

Lemma quiet_decision (rc : Z) (err : AxiosError) :
  quiet rs -> retry_decision rs rc err <> None.
Proof.
  intros (_ & [c Hc] & _). unfold retry_decision. rewrite Hc.
  destruct (rs_retries rs); [destruct (rc <? z) |]; discriminate.
Qed.

Lemma retry_loop_cases (fuel : nat) (rc t : Z) (n : nat) r k ds :
  retry_loop rs meth vs tr rnd fuel rc t n = (r, k, ds) ->
  (k = S n /\ ds = [] /\
   (quiet rs -> r = to_rejection (settle meth vs (tr n t).1))) \/
  (exists fuel' err c f t' ds',
     fuel = S fuel' /\
     settle meth vs (tr n t).1 = inr err /\
     rs_retryCondition rs = Some c /\ c err = true /\
     (exists R, rs_retries rs = Some R /\ rc < R) /\
     rs_retryDelay rs = Some f /\
     t' = (if negb (rs_shouldResetTimeout rs) && negb (t =? 0)
           then t - (tr n t).2 - f (rc + 1) err (rnd n) else t) /\
     (negb (rs_shouldResetTimeout rs) && negb (t =? 0) = true -> 0 < t') /\
     retry_loop rs meth vs tr rnd fuel' (rc + 1) t' (S n) = (r, k, ds') /\
     ds = f (rc + 1) err (rnd n) :: ds').
Proof.
  intros H.
  destruct (tr n t) as [x dur] eqn:Hx. cbn [fst snd].
  assert (Hstop : forall r0, (r0, S n, []) = (r, k, ds) ->
            (quiet rs -> r0 = to_rejection (settle meth vs x)) ->
            k = S n /\ ds = [] /\
            (quiet rs -> r = to_rejection (settle meth vs x))).
  { intros r0 E Hq. injection E as <- <- <-. auto. }
  destruct fuel as [| f']; simpl in H; rewrite Hx in H;
    destruct (settle meth vs x) as [res | err] eqn:Hs;
    try (left; apply (Hstop _ H); reflexivity);
    destruct (validated rs x) eqn:Hv;
    try (left; apply (Hstop _ H); intros Hq;
         rewrite (quiet_validated x Hq) in Hv; discriminate);
    destruct (retry_decision rs rc err) as [[|] |] eqn:Hd;
    try (left; apply (Hstop _ H); intros Hq;
         first [ apply quiet_handleMaxRetryTimesExceeded; exact Hq
               | exfalso; exact (quiet_decision rc err Hq Hd) ]).
  destruct (rs_retryDelay rs) as [g |] eqn:Hg;
    [| left; apply (Hstop _ H); intros (_ & _ & [f Hf] & _); congruence].
  unfold retry_decision in Hd.
  destruct (rs_retries rs) as [R |] eqn:HR; [| discriminate].
  destruct (Z.ltb_spec rc R) as [HrcR | HrcR]; [| discriminate].
  destruct (rs_retryCondition rs) as [c |] eqn:Hc; [| discriminate].
  injection Hd as Hd.
  set (b := negb (rs_shouldResetTimeout rs) && negb (t =? 0)) in *.
  set (delay := g (rc + 1) err (rnd n)) in *.
  assert (Hnext : forall t', (if b then (if t - dur - delay <=? 0 then None
                                        else Some (t - dur - delay))
                              else Some t) = Some t' ->
            t' = (if b then t - dur - delay else t) /\ (b = true -> 0 < t')).
  { intros t' E. destruct b.
    - destruct (Z.leb_spec (t - dur - delay) 0); [discriminate |].
      injection E as <-. split; [reflexivity | lia].
    - injection E as <-. split; [reflexivity | discriminate]. }
  destruct (if b then _ else _) as [t' |] eqn:Ht';
    [| left; apply (Hstop _ H); intros Hq; reflexivity].
  destruct (Hnext t' eq_refl) as [Heq Hpos].
  destruct (match rs_onRetry rs with
            | Some g0 => g0 (rc + 1) err
            | None => Some "TypeError: onRetry is not a function"
            end) as [why |] eqn:Ho.
  { left; apply (Hstop _ H); intros (_ & _ & _ & [g0 [Hg0 Hg0']] & _).
    rewrite Hg0, Hg0' in Ho. discriminate. }
  destruct (retry_loop rs meth vs tr rnd f' (rc + 1) t' (S n))
    as [[r0 k0] ds0] eqn:Hrec.
  injection H as <- <- <-.
  right. exists f', err, c, g, t', ds0.
  repeat split; auto. exists R; auto.
Qed.

Lemma retry_loop_shape (fuel : nat) :
  forall rc t n r k ds,
    retry_loop rs meth vs tr rnd fuel rc t n = (r, k, ds) ->
    (S n <= k <= S n + fuel)%nat /\ length ds = (k - S n)%nat /\
    (quiet rs -> exists t', r = to_rejection (settle meth vs (tr (pred k) t').1)).
Proof.
  induction fuel as [| f IH]; intros rc t n r k ds H;
    destruct (retry_loop_cases _ _ _ _ _ _ _ H)
      as [(-> & -> & Hq) | (f' & err & c & g & t' & ds' & Hf & _ & _ & _ & _ & _ &
                            _ & _ & Hrec & ->)].
  - split; [lia | split; [simpl; lia |]]. intros Hq'. exists t. exact (Hq Hq').
  - discriminate.
  - split; [lia | split; [simpl; lia |]]. intros Hq'. exists t. exact (Hq Hq').
  - injection Hf as <-.
    destruct (IH _ _ _ _ _ _ Hrec) as [Hk [Hl Hq]].
    split; [lia | split; [simpl; lia | exact Hq]].
Qed.

Lemma retry_loop_retried (fuel : nat) :
  forall rc t n r k ds,
    retry_loop rs meth vs tr rnd fuel rc t n = (r, k, ds) ->
    forall i, (n <= i < pred k)%nat ->
    exists t' e c, settle meth vs (tr i t').1 = inr e /\
                   rs_retryCondition rs = Some c /\ c e = true.
Proof.
  induction fuel as [| f IH]; intros rc t n r k ds H i Hi;
    destruct (retry_loop_cases _ _ _ _ _ _ _ H)
      as [(-> & _ & _) | (f' & err & c & g & t' & ds' & Hf & Hs & Hc & Hce & _ &
                          _ & _ & _ & Hrec & _)];
    try (simpl in Hi; lia); try discriminate.
  injection Hf as <-.
  destruct (Nat.eq_dec i n) as [-> | Hne].
  - exists t, err, c. auto.
  - destruct (retry_loop_shape _ _ _ _ _ _ _ Hrec) as [Hk _].
    apply (IH _ _ _ _ _ _ Hrec). lia.
Qed.

Lemma retry_loop_budget (Hreset : rs_shouldResetTimeout rs = false)
    (Hdur : forall i t, 0 <= (tr i t).2) (fuel : nat) :
  forall rc t n r k ds,
    retry_loop rs meth vs tr rnd fuel rc t n = (r, k, ds) ->
    0 < t -> fold_right Z.add 0 ds < t.
Proof.
  induction fuel as [| f IH]; intros rc t n r k ds H Ht;
    destruct (retry_loop_cases _ _ _ _ _ _ _ H)
      as [(_ & -> & _) | (f' & err & c & g & t' & ds' & Hf & _ & _ & _ & _ &
                          _ & Ht' & Hpos & Hrec & ->)];
    try (simpl; lia); try discriminate.
  injection Hf as <-.
  rewrite Hreset in Ht', Hpos.
  destruct (Z.eqb_spec t 0) as [| _]; [lia |]. simpl in Ht', Hpos.
  specialize (Hpos eq_refl).
  specialize (IH _ _ _ _ _ _ Hrec Hpos).
  pose proof (Hdur n t). simpl. lia.
Qed.

Lemma retry_loop_fuel_enough (fuel : nat) :
  forall fuel' rc t n,
    (forall R, rs_retries rs = Some R -> (Z.to_nat (R - rc) <= fuel)%nat) ->
    (fuel <= fuel')%nat ->
    retry_loop rs meth vs tr rnd fuel' rc t n =
    retry_loop rs meth vs tr rnd fuel rc t n.
Proof.
  induction fuel as [| f IH]; intros fuel' rc t n Hf Hle;
    (destruct fuel' as [| f'']; [first [reflexivity | lia] |]);
    simpl; destruct (tr n t) as [x dur];
    destruct (settle meth vs x) as [res | err]; try reflexivity;
    destruct (validated rs x); try reflexivity;
    destruct (retry_decision rs rc err) as [[|] |] eqn:Hd; try reflexivity.
  - unfold retry_decision in Hd.
    destruct (rs_retries rs) as [R |] eqn:HR; [| discriminate].
    destruct (Z.ltb_spec rc R); [| discriminate].
    specialize (Hf R eq_refl). lia.
  - destruct (rs_retryDelay rs) as [g |]; [| reflexivity].
    destruct (if negb (rs_shouldResetTimeout rs) && negb (t =? 0)
              then (if t - dur - g (rc + 1) err (rnd n) <=? 0 then None
                    else Some (t - dur - g (rc + 1) err (rnd n)))
              else Some t) as [t' |]; [| reflexivity].
    destruct (match rs_onRetry rs with
              | Some g0 => g0 (rc + 1) err
              | None => Some "TypeError: onRetry is not a function"
              end); [reflexivity |].
    rewrite (IH f''); [reflexivity | | lia].
    intros R HR. specialize (Hf R HR). lia.
Qed.
End LoopFacts.

Section Always500.
Variable cfg : RetryConfig.
Variable m : HttpMethod.
Variable tr : nat -> Z -> Exchange * Z.
Variable rnd : nat -> Q.
(** [dur n]: how long attempt [n] takes. *)
Variable dur : nat -> Z.
Hypothesis Htr : forall n t, exists r, tr n t = (Responded r, dur n) /\ status r = 500.

Lemma always_500_non_idempotent (Hm : m = POST \/ m = PATCH) :
  forall fuel rc t n,
    retry_loop (retry_state cfg no_retry_options) (method_lower m)
      (Some default_validateStatus) tr rnd fuel rc t n =
    (inr (RejAxios (error_500 m)), S n, []).
Proof.
  intros fuel rc t n.
  destruct (Htr n t) as [r [Hx Hs]].
  destruct (retry_loop _ _ _ _ _ fuel rc t n) as [[r' k] ds] eqn:E.
  destruct (retry_loop_cases _ _ _ _ _ _ _ _ _ _ _ _ E)
    as [(-> & -> & Hq) | (f' & err & c & g & t' & ds' & _ & Hse & Hc & Hce & _)].
  - rewrite (Hq (retry_state_quiet cfg)), Hx. cbn [fst].
    rewrite (settle_500 m r Hs). reflexivity.
  - rewrite Hx in Hse. cbn [fst] in Hse. rewrite (settle_500 m r Hs) in Hse.
    injection Hse as <-. simpl in Hc. injection Hc as <-.
    destruct Hm as [-> | ->]; discriminate.
Qed.

Hypothesis Hrnd : forall k, (0 <= rnd k < 1)%Q.

Lemma always_500_idempotent (Hm : m = GET \/ m = PUT \/ m = DELETE) :
  forall fuel rc t n,
    fuel = Z.to_nat (retries cfg - rc) ->
    (t = 0 \/
     forall k, (n < k <= n + fuel)%nat ->
       dur_sum dur k - dur_sum dur n + Z.of_nat (k - n) * (maxDelayMs cfg + 100) < t) ->
    (retry_loop (retry_state cfg no_retry_options) (method_lower m)
       (Some default_validateStatus) tr rnd fuel rc t n).1 =
    (inr (RejAxios (error_500 m)), (n + S fuel)%nat).
Proof.
  assert (Hretry : shouldRetry (error_500 m) = true)
    by (destruct Hm as [-> | [-> | ->]]; reflexivity).
  induction fuel as [| f IH]; intros rc t n Hf Ht.
  - destruct (Htr n t) as [r [Hx Hs]].
    simpl. rewrite Hx, (settle_500 m r Hs).
    unfold retry_decision, handleMaxRetryTimesExceeded; simpl.
    destruct (Z.ltb_spec rc (retries cfg)); [lia |].
    destruct (Z.leb_spec (retries cfg) rc); [| lia].
    simpl. f_equal. lia.
  - destruct (Htr n t) as [r [Hx Hs]].
    simpl. rewrite Hx, (settle_500 m r Hs).
    unfold retry_decision; simpl.
    destruct (Z.ltb_spec rc (retries cfg)); [| lia].
    simpl. rewrite Hretry.
    pose proof (retryDelay_lt_max (baseDelayMs cfg) (maxDelayMs cfg) (rc + 1)
                  (rnd n) (Hrnd n)) as Hd.
    set (delay := retryDelay (baseDelayMs cfg) (maxDelayMs cfg) (rc + 1) (rnd n))
      in *.
    destruct (Z.eqb_spec t 0) as [Ht0 | Ht0]; simpl.
    + destruct (retry_loop _ _ _ _ _ f (rc + 1) t (S n)) as [[r' k] ds] eqn:E.
      simpl.
      assert (Hrec := IH (rc + 1) t (S n) ltac:(lia) (or_introl Ht0)).
      rewrite E in Hrec. simpl in Hrec. rewrite Hrec. f_equal. lia.
    + destruct Ht as [Ht | Ht]; [contradiction |].
      set (M := maxDelayMs cfg + 100) in *.
      assert (H1 := Ht (S n) ltac:(lia)).
      replace (S n - n)%nat with 1%nat in H1 by lia. simpl in H1.
      destruct (Z.leb_spec (t - dur n - delay) 0) as [Hle | Hgt]; [lia |].
      destruct (retry_loop _ _ _ _ _ f (rc + 1) (t - dur n - delay) (S n))
        as [[r' k] ds] eqn:E.
      simpl.
      assert (Hrec := IH (rc + 1) (t - dur n - delay) (S n) ltac:(lia)).
      rewrite E in Hrec. simpl in Hrec.
      rewrite Hrec; [f_equal; lia |].
      right. intros k' Hk'. specialize (Ht k' ltac:(lia)). simpl.
      replace (Z.of_nat (k' - n)) with (Z.of_nat (k' - S n) + 1) in Ht by lia.
      lia.
Qed.
End Always500.

(** C6 (refuted). The claim: with the breaker off and a transport
    answering 500 every time, the call makes [maxAttempts] attempts
    (retries + 1 = 3 with the defaults). A POST makes one: a 500 is not
    retried for a non-idempotent method. *)
Lemma always_500_post_single_attempt :
  (doAxios (constructor_instance no_env (fun _ => 0)) always_500 (fun _ => 0%Q)
     (options_breaker_off_args POST)).1.2 = 1%nat /\
  retries (constructor_retry no_env (fun _ => 0)) + 1 = 3 /\
  (request no_env (fun _ => 0) (fun _ => None) always_500 (fun _ => 0%Q)
     (fun _ _ => inr (BreakerErr "unused")) initial_state POST
     "http://order-service:3002/orders" JNull None (Some options_breaker_off)).1 =
  inr (AxiosErr (error_500 POST)).
Proof. split; [| split]; reflexivity. Qed.

(** C6 (amended). With the breaker disabled, a caller config that sets
    no [method], [validateStatus] or ['axios-retry'] options (a [timeout]
    is allowed), and every attempt answered 500 (attempt [i] taking
    [dur i] ms), the call rejects with the axios error of the last
    attempt (status 500, code [ERR_BAD_RESPONSE]; there is no separate
    upstream-status error type) and leaves the client state unchanged.
    A POST or PATCH stops after one attempt. A GET, PUT or DELETE makes
    [retries + 1] attempts ([retries] being the constructor's count; one
    attempt when it is negative) provided the request timeout [T] is 0
    (no budget) or, for every [k] from 1 to [retries], the first [k]
    attempts' durations plus [k * (maxDelayMs + 100)] stay below [T], so
    that axios-retry's remaining-timeout check does not stop it early. *)
Theorem always_500_breaker_off
    (env : string -> option string) (Number : string -> Z)
    (parseURL : string -> option URLRecord)
    (transport : DoAxiosArgs -> nat -> Z -> Exchange * Z) (rnd : nat -> Q)
    (fire : CircuitBreaker -> DoAxiosArgs -> HttpResponse + CallError)
    (st : ClientState) (m : HttpMethod) (url : string) (d : JsVal)
    (config : option AxiosRequestConfig) (opts : option HttpClientOptions)
    (dur : nat -> Z)
    (Hoff : enabled (breaker (mergeOptions env Number opts)) = false)
    (Hplain : plain_config config)
    (Htr : forall args n t,
       exists r, transport args n t = (Responded r, dur n) /\ status r = 500)
    (Hrnd : forall k, (0 <= rnd k < 1)%Q) :
  let inst := constructor_instance env Number in
  let cfg := constructor_retry env Number in
  let args := mkDoAxiosArgs m url d config (timeoutMs (mergeOptions env Number opts)) in
  request env Number parseURL transport rnd fire st m url d config opts =
    (inr (AxiosErr (error_500 m)), st) /\
  ((m = POST \/ m = PATCH) ->
     doAxios inst transport rnd args = (inr (RejAxios (error_500 m)), 1%nat, [])) /\
  ((m = GET \/ m = PUT \/ m = DELETE) ->
     (effective_timeout inst args = 0 \/
      forall k, (1 <= k <= Z.to_nat (retries cfg))%nat ->
        dur_sum dur k + Z.of_nat k * (maxDelayMs cfg + 100) <
        effective_timeout inst args) ->
     (doAxios inst transport rnd args).1 =
       (inr (RejAxios (error_500 m)), S (Z.to_nat (retries cfg)))).
Proof.
  cbv zeta.
  set (inst := constructor_instance env Number).
  set (cfg := constructor_retry env Number).
  set (args := mkDoAxiosArgs m url d config (timeoutMs (mergeOptions env Number opts))).
  assert (Hp : plain_config (arg_config args)) by exact Hplain.
  assert (Hcfg : inst_retry inst = cfg) by reflexivity.
  assert (Hnon : (m = POST \/ m = PATCH) ->
     doAxios inst transport rnd args = (inr (RejAxios (error_500 m)), 1%nat, [])).
  { intros Hm. rewrite (plain_doAxios _ _ _ _ Hp).
    apply (always_500_non_idempotent _ _ _ _ dur); [apply Htr | exact Hm]. }
  assert (Hidem : (m = GET \/ m = PUT \/ m = DELETE) ->
     (effective_timeout inst args = 0 \/
      forall k, (1 <= k <= Z.to_nat (retries cfg))%nat ->
        dur_sum dur k + Z.of_nat k * (maxDelayMs cfg + 100) <
        effective_timeout inst args) ->
     (doAxios inst transport rnd args).1 =
       (inr (RejAxios (error_500 m)), S (Z.to_nat (retries cfg)))).
  { intros Hm Ht. rewrite (plain_doAxios _ _ _ _ Hp), Hcfg.
    change (arg_method args) with m.
    rewrite (always_500_idempotent cfg m (transport args) rnd dur (Htr args) Hrnd Hm
               (Z.to_nat (retries cfg)) 0 (effective_timeout inst args) 0).
    - reflexivity.
    - rewrite Z.sub_0_r. reflexivity.
    - destruct Ht as [Ht | Ht]; [left; exact Ht | right].
      intros k Hk. specialize (Ht k ltac:(lia)).
      rewrite Nat.sub_0_r. change (dur_sum dur 0) with 0. lia. }
  split; [| split; assumption].
  unfold request. cbv zeta. rewrite Hoff. fold args. fold inst.
  destruct (doAxios inst transport rnd args) as [[r k] ds] eqn:E.
  rewrite (plain_doAxios _ _ _ _ Hp) in E.
  destruct (retry_loop_shape _ _ _ _ _ _ _ _ _ _ _ _ E) as [_ [_ Hq]].
  destruct (Hq (retry_state_quiet _)) as [t' Hr].
  destruct (Htr args (pred k) t') as [res [Hx Hs]].
  rewrite Hx in Hr. cbn [fst] in Hr. change (arg_method args) with m in Hr.
  rewrite (settle_500 m res Hs) in Hr.
  rewrite Hr. reflexivity.
Qed.

Lemma always_500_breaker_off_witness :
  (enabled (breaker (mergeOptions no_env (fun _ => 0) (Some options_breaker_off))) = false /\
   plain_config None /\
   (forall args n t, exists r,
      always_500 args n t = (Responded r, (fun _ => 0) n) /\ status r = 500) /\
   (forall k : nat, (0 <= (fun _ => 0%Q) k < 1)%Q)) /\
  (request no_env (fun _ => 0) (fun _ => None) always_500 (fun _ => 0%Q)
     (fun _ _ => inr (BreakerErr "unused")) initial_state GET
     "http://order-service:3002/orders" JNull None (Some options_breaker_off) =
   (inr (AxiosErr (error_500 GET)), initial_state)).
Proof.
  assert (H1 : enabled (breaker (mergeOptions no_env (fun _ => 0)
                 (Some options_breaker_off))) = false) by reflexivity.
  assert (H2 : plain_config None) by exact I.
  assert (H3 : forall args n t, exists r,
             always_500 args n t = (Responded r, (fun _ => 0) n) /\ status r = 500)
    by (intros; eexists; split; reflexivity).
  assert (H4 : forall k : nat, (0 <= (fun _ => 0%Q) k < 1)%Q)
    by (intros; split; [unfold Qle; simpl; lia | unfold Qlt; simpl; lia]).
  split; [split; [exact H1 | split; [exact H2 | split; [exact H3 | exact H4]]] |].
  exact (proj1 (always_500_breaker_off no_env (fun _ => 0) (fun _ => None)
                  always_500 (fun _ => 0%Q) (fun _ _ => inr (BreakerErr "unused"))
                  initial_state GET "http://order-service:3002/orders" JNull None
                  (Some options_breaker_off) (fun _ => 0) H1 H2 H3 H4)).
Defined.

(** C7 (refuted). The claim: [maxAttempts = retries + 1] is at least 1
    for every configuration and bounds the attempts. With
    [HTTP_RETRY_COUNT=-1] it is 0, and a call still makes one attempt;
    and a call whose config passes ['axios-retry': { retries: 5 }] makes
    six attempts against a 500 though the constructor's [retries + 1] is
    3. *)
Lemma negative_retries_max_attempts :
  retries (constructor_retry env_negative_retries Number_minus_one) + 1 = 0 /\
  (doAxios (constructor_instance env_negative_retries Number_minus_one)
     always_500 (fun _ => 0%Q) (options_breaker_off_args GET)).1.2 = 1%nat /\
  retries (constructor_retry no_env (fun _ => 0)) + 1 = 3 /\
  (doAxios (constructor_instance no_env (fun _ => 0))
     always_500 (fun _ => 0%Q) (five_retries_args GET)).1.2 = 6%nat.
Proof. split; [| split; [| split]]; vm_compute; reflexivity. Qed.

(** C7 (amended). Every [doAxios] run makes at least one attempt and at
    most [S (retry_fuel rs)] = [max(1, R - c + 1)] attempts, where [R]
    is the [retries] in force (the request's ['axios-retry'].retries when
    its config gives one, else the constructor's count; [undefined]
    allows no retry) and [c] the request's preset [retryCount] (0 by
    default); it sleeps once between consecutive attempts. With no
    ['axios-retry'] options the bound is [max(1, retries + 1)] for the
    constructor's [retries], and the run ends with what axios made of
    the last attempt's exchange: its response, or its error (the last
    error once retries are exhausted). *)
Theorem doAxios_attempts (inst : AxiosInstance)
    (transport : DoAxiosArgs -> nat -> Z -> Exchange * Z) (rnd : nat -> Q)
    (args : DoAxiosArgs) :
  let rs := retry_state (inst_retry inst) (retry_options_of args) in
  let '(r, k, ds) := doAxios inst transport rnd args in
  (1 <= k <= S (retry_fuel rs))%nat /\
  length ds = pred k /\
  (retry_options_of args = no_retry_options ->
   retry_fuel rs = Z.to_nat (retries (inst_retry inst)) /\
   exists t, r = to_rejection
                   (settle (effective_method args) (effective_validateStatus rs args)
                      (transport args (pred k) t).1)).
Proof.
  cbv zeta.
  destruct (doAxios inst transport rnd args) as [[r k] ds] eqn:E.
  unfold doAxios in E.
  destruct (retry_loop_shape _ _ _ _ _ _ _ _ _ _ _ _ E) as [Hk [Hl Hq]].
  split; [lia | split; [lia |]].
  intros Ho. rewrite Ho in Hq |- *.
  split; [unfold retry_fuel; simpl; rewrite Z.sub_0_r; reflexivity |].
  exact (Hq (retry_state_quiet _)).
Qed.

(** * Further properties of the client *)

Lemma request_state
    (env : string -> option string) (Number : string -> Z)
    (parseURL : string -> option URLRecord)
    (transport : DoAxiosArgs -> nat -> Z -> Exchange * Z) (rnd : nat -> Q)
    (fire : CircuitBreaker -> DoAxiosArgs -> HttpResponse + CallError)
    (st : ClientState) (m : HttpMethod) (url : string) (d : JsVal)
    (config : option AxiosRequestConfig) (opts : option HttpClientOptions) :
  (request env Number parseURL transport rnd fire st m url d config opts).2 =
  if enabled (breaker (mergeOptions env Number opts))
  then (getOrCreateBreaker st (deriveServiceKey parseURL url)
          (mergeOptions env Number opts)).2
  else st.
Proof.
  unfold request. cbv zeta.
  destruct (enabled (breaker (mergeOptions env Number opts))).
  - destruct (getOrCreateBreaker _ _ _) as [b st1].
    destruct (fire b _); reflexivity.
  - destruct (doAxios _ _ _ _) as [[[res | [e | why]] k] ds]; reflexivity.
Qed.

Lemma getOrCreateBreaker_keeps (st : ClientState) (key k : string)
    (o : MergedOptions) (b : CircuitBreaker) :
  breakers st !! k = Some b ->
  breakers (getOrCreateBreaker st key o).2 !! k = Some b.
Proof.
  intros Hk. unfold getOrCreateBreaker.
  destruct (breakers st !! key) as [b0 |] eqn:Hkey; simpl; [exact Hk |].
  rewrite lookup_insert_ne; [exact Hk |]. congruence.
Qed.

(** X1. A breaker stored under a key stays stored, unchanged, after any
    further call: no call removes or replaces a breaker. *)
Theorem request_keeps_breakers
    (env : string -> option string) (Number : string -> Z)
    (parseURL : string -> option URLRecord)
    (transport : DoAxiosArgs -> nat -> Z -> Exchange * Z) (rnd : nat -> Q)
    (fire : CircuitBreaker -> DoAxiosArgs -> HttpResponse + CallError)
    (st : ClientState) (m : HttpMethod) (url : string) (d : JsVal)
    (config : option AxiosRequestConfig) (opts : option HttpClientOptions)
    (k : string) (b : CircuitBreaker) (Hk : breakers st !! k = Some b) :
  breakers (request env Number parseURL transport rnd fire st m url d config opts).2
    !! k = Some b.
Proof.
  rewrite request_state.
  destruct (enabled _); [apply getOrCreateBreaker_keeps |]; exact Hk.
Qed.

(** X2. With the breaker disabled in the merged options, a call leaves the
    client state (the breaker map) untouched. *)
Theorem request_breaker_off_frame
    (env : string -> option string) (Number : string -> Z)
    (parseURL : string -> option URLRecord)
    (transport : DoAxiosArgs -> nat -> Z -> Exchange * Z) (rnd : nat -> Q)
    (fire : CircuitBreaker -> DoAxiosArgs -> HttpResponse + CallError)
    (st : ClientState) (m : HttpMethod) (url : string) (d : JsVal)
    (config : option AxiosRequestConfig) (opts : option HttpClientOptions)
    (Hoff : enabled (breaker (mergeOptions env Number opts)) = false) :
  (request env Number parseURL transport rnd fire st m url d config opts).2 = st.
Proof. rewrite request_state, Hoff. reflexivity. Qed.

(** X3. With the breaker enabled, after a call (successful or not) a
    breaker is stored under the URL's service key, and the entries of all
    other keys are unchanged. *)
Theorem request_breaker_on_registers
    (env : string -> option string) (Number : string -> Z)
    (parseURL : string -> option URLRecord)
    (transport : DoAxiosArgs -> nat -> Z -> Exchange * Z) (rnd : nat -> Q)
    (fire : CircuitBreaker -> DoAxiosArgs -> HttpResponse + CallError)
    (st : ClientState) (m : HttpMethod) (url : string) (d : JsVal)
    (config : option AxiosRequestConfig) (opts : option HttpClientOptions)
    (Hon : enabled (breaker (mergeOptions env Number opts)) = true) :
  let st' := (request env Number parseURL transport rnd fire st m url d config opts).2 in
  is_Some (breakers st' !! deriveServiceKey parseURL url) /\
  (forall k, k <> deriveServiceKey parseURL url ->
     breakers st' !! k = breakers st !! k).
Proof.
  cbv zeta. rewrite request_state, Hon.
  unfold getOrCreateBreaker.
  destruct (breakers st !! deriveServiceKey parseURL url) as [b0 |] eqn:Hkey;
    simpl.
  - split; [rewrite Hkey; eexists; reflexivity | reflexivity].
  - split.
    + rewrite lookup_insert_eq. eexists; reflexivity.
    + intros k Hk. apply lookup_insert_ne. congruence.
Qed.

(** X4. Two successive calls with the breaker enabled whose URLs have the
    same service key go through the same breaker object: the second call
    gets the breaker the first one used (created with the first call's
    options). *)
Theorem request_same_key_same_breaker
    (env : string -> option string) (Number : string -> Z)
    (parseURL : string -> option URLRecord)
    (transport : DoAxiosArgs -> nat -> Z -> Exchange * Z) (rnd : nat -> Q)
    (fire : CircuitBreaker -> DoAxiosArgs -> HttpResponse + CallError)
    (st : ClientState) (m1 m2 : HttpMethod) (url1 url2 : string) (d1 d2 : JsVal)
    (c1 c2 : option AxiosRequestConfig) (o1 o2 : option HttpClientOptions)
    (Hon : enabled (breaker (mergeOptions env Number o1)) = true)
    (Hkey : deriveServiceKey parseURL url1 = deriveServiceKey parseURL url2) :
  let st1 := (request env Number parseURL transport rnd fire st m1 url1 d1 c1 o1).2 in
  (getOrCreateBreaker st1 (deriveServiceKey parseURL url2)
     (mergeOptions env Number o2)).1 =
  (getOrCreateBreaker st (deriveServiceKey parseURL url1)
     (mergeOptions env Number o1)).1.
Proof.
  cbv zeta. rewrite request_state, Hon, <- Hkey.
  unfold getOrCreateBreaker.
  destruct (breakers st !! deriveServiceKey parseURL url1) as [b0 |] eqn:E;
    simpl.
  - rewrite E. reflexivity.
  - rewrite lookup_insert_eq. reflexivity.
Qed.

Lemma registry_wf_initial : registry_wf initial_state.
Proof. split; intros *; simpl; rewrite lookup_empty; intros; discriminate. Qed.

Lemma getOrCreateBreaker_wf (st : ClientState) (key : string) (o : MergedOptions) :
  registry_wf st -> registry_wf (getOrCreateBreaker st key o).2.
Proof.
  intros [Hkeys Hids]. unfold getOrCreateBreaker.
  destruct (breakers st !! key) as [b0 |] eqn:Hkey; simpl; [split; assumption |].
  split.
  - intros k b Hk. cbn [breakers next_id] in *.
    destruct (decide (k = key)) as [-> | Hne].
    + rewrite lookup_insert_eq in Hk. injection Hk as <-. simpl. split; [reflexivity | lia].
    + rewrite lookup_insert_ne in Hk by congruence.
      destruct (Hkeys k b Hk). split; [assumption | lia].
  - intros k1 k2 b1 b2 H1 H2 Hne. cbn [breakers next_id] in *.
    destruct (decide (k1 = key)) as [-> | Hne1];
    destruct (decide (k2 = key)) as [-> | Hne2]; [contradiction | | |].
    + rewrite lookup_insert_eq in H1. injection H1 as <-.
      rewrite lookup_insert_ne in H2 by congruence.
      destruct (Hkeys k2 b2 H2). simpl. lia.
    + rewrite lookup_insert_eq in H2. injection H2 as <-.
      rewrite lookup_insert_ne in H1 by congruence.
      destruct (Hkeys k1 b1 H1). simpl. lia.
    + rewrite lookup_insert_ne in H1, H2 by congruence.
      exact (Hids k1 k2 b1 b2 H1 H2 Hne).
Qed.

Lemma request_all_wf
    (env : string -> option string) (Number : string -> Z)
    (parseURL : string -> option URLRecord)
    (transport : DoAxiosArgs -> nat -> Z -> Exchange * Z) (rnd : nat -> Q)
    (fire : CircuitBreaker -> DoAxiosArgs -> HttpResponse + CallError) :
  forall calls st, registry_wf st ->
  registry_wf (request_all env Number parseURL transport rnd fire st calls).
Proof.
  induction calls as [| [[[[m u] d] c] o] rest IH]; intros st Hwf; simpl;
    [exact Hwf |].
  apply IH. rewrite request_state.
  destruct (enabled _); [apply getOrCreateBreaker_wf |]; exact Hwf.
Qed.

(** X5. After any sequence of calls on a fresh client, the breaker stored
    under a key was created for that key, and breakers stored under
    different keys are different objects: a failing service never trips
    the breaker of another one. *)
Theorem request_all_breakers_isolated
    (env : string -> option string) (Number : string -> Z)
    (parseURL : string -> option URLRecord)
    (transport : DoAxiosArgs -> nat -> Z -> Exchange * Z) (rnd : nat -> Q)
    (fire : CircuitBreaker -> DoAxiosArgs -> HttpResponse + CallError)
    (calls : list (HttpMethod * string * JsVal * option AxiosRequestConfig *
                   option HttpClientOptions))
    (k1 k2 : string) (b1 b2 : CircuitBreaker)
    (H1 : breakers (request_all env Number parseURL transport rnd fire
                      initial_state calls) !! k1 = Some b1)
    (H2 : breakers (request_all env Number parseURL transport rnd fire
                      initial_state calls) !! k2 = Some b2) :
  breaker_key b1 = k1 /\ (k1 <> k2 -> breaker_id b1 <> breaker_id b2).
Proof.
  destruct (request_all_wf env Number parseURL transport rnd fire calls
              initial_state registry_wf_initial) as [Hkeys Hids].
  split; [apply (Hkeys k1 b1 H1) |].
  intros Hne. exact (Hids k1 k2 b1 b2 H1 H2 Hne).
Qed.

(** X6. When the caller does not set [breaker.enabled], the breaker is
    enabled exactly when [HTTP_BREAKER_ENABLED] is unset or is the exact
    string ["true"] (so ["TRUE"] or ["1"] disable it). *)
Theorem mergeOptions_breaker_enabled_env
    (env : string -> option string) (Number : string -> Z)
    (opts : option HttpClientOptions)
    (Hnone : (opts ≫= opt_breaker) ≫= opt_enabled = None) :
  enabled (breaker (mergeOptions env Number opts)) = true <->
  env "HTTP_BREAKER_ENABLED" = None \/ env "HTTP_BREAKER_ENABLED" = Some "true".
Proof.
  unfold mergeOptions. simpl. rewrite Hnone. simpl.
  rewrite bool_decide_eq_true.
  destruct (env "HTTP_BREAKER_ENABLED") as [v |]; simpl.
  - split; [intros ->; right; reflexivity |].
    intros [H | H]; [discriminate | injection H as ->; reflexivity].
  - tauto.
Qed.

(** X7. The per-call [retry] options are merged but never used: two calls
    whose options differ only in [retry] give the same result and the
    same client state. *)
Theorem request_ignores_retry_options
    (env : string -> option string) (Number : string -> Z)
    (parseURL : string -> option URLRecord)
    (transport : DoAxiosArgs -> nat -> Z -> Exchange * Z) (rnd : nat -> Q)
    (fire : CircuitBreaker -> DoAxiosArgs -> HttpResponse + CallError)
    (st : ClientState) (m : HttpMethod) (url : string) (d : JsVal)
    (config : option AxiosRequestConfig)
    (t : option Z) (r1 r2 : option RetryOptions) (b : option BreakerOptions) :
  request env Number parseURL transport rnd fire st m url d config
    (Some (mkHttpClientOptions t r1 b)) =
  request env Number parseURL transport rnd fire st m url d config
    (Some (mkHttpClientOptions t r2 b)).
Proof.
  unfold request, getOrCreateBreaker, breaker_settings_of. reflexivity.
Qed.

(** X8. Unless the call's ['axios-retry'] options set
    [shouldResetTimeout], with a positive request timeout [T] and
    attempts that take non-negative time, the backoff sleeps of one
    [doAxios] call add up to less than [T]: axios-retry deducts each
    attempt's duration and each delay from the timeout and gives up once
    nothing is left. *)
Theorem doAxios_sleep_budget (inst : AxiosInstance)
    (transport : DoAxiosArgs -> nat -> Z -> Exchange * Z) (rnd : nat -> Q)
    (args : DoAxiosArgs)
    (Hreset : rs_shouldResetTimeout
                (retry_state (inst_retry inst) (retry_options_of args)) = false)
    (Ht : 0 < effective_timeout inst args)
    (Hdur : forall n t, 0 <= (transport args n t).2) :
  fold_right Z.add 0 (doAxios inst transport rnd args).2 <
  effective_timeout inst args.
Proof.
  destruct (doAxios inst transport rnd args) as [[r k] ds] eqn:E.
  unfold doAxios in E. simpl.
  exact (retry_loop_budget _ _ _ _ _ Hreset Hdur _ _ _ _ _ _ _ E Ht).
Qed.

(** X9. A [doAxios] call only makes another attempt after an axios error
    that the [retryCondition] in force accepts: every attempt before the
    last one ended in such an error, so a success or an error the
    condition rejects ends the call at once. With no ['axios-retry']
    options in the call's config that condition is [shouldRetry]. *)
Theorem doAxios_retries_only_retryable (inst : AxiosInstance)
    (transport : DoAxiosArgs -> nat -> Z -> Exchange * Z) (rnd : nat -> Q)
    (args : DoAxiosArgs) :
  let rs := retry_state (inst_retry inst) (retry_options_of args) in
  let '(r, k, ds) := doAxios inst transport rnd args in
  (forall i, (i < pred k)%nat ->
   exists t e c,
     settle (effective_method args) (effective_validateStatus rs args)
       (transport args i t).1 = inr e /\
     rs_retryCondition rs = Some c /\ c e = true) /\
  (retry_options_of args = no_retry_options ->
   rs_retryCondition rs = Some shouldRetry).
Proof.
  cbv zeta.
  destruct (doAxios inst transport rnd args) as [[r k] ds] eqn:E.
  unfold doAxios in E.
  split.
  - intros i Hi.
    exact (retry_loop_retried _ _ _ _ _ _ _ _ _ _ _ _ E i ltac:(lia)).
  - intros Ho. rewrite Ho. reflexivity.
Qed.

(** * Witnesses of the further properties *)

Lemma request_keeps_breakers_witness :
  let st0 := (getOrCreateBreaker initial_state "catalog-service" (sample_options 3500)).2 in
  let b := mkCircuitBreaker 0 "catalog-service" (breaker_settings_of (sample_options 3500)) in
  breakers st0 !! "catalog-service" = Some b /\
  breakers (request no_env (fun _ => 0) sample_parseURL always_500 (fun _ => 0%Q)
              open_fire st0 POST "http://order-service:3002/orders" JNull None None).2
    !! "catalog-service" = Some b.
Proof.
  cbv zeta.
  assert (H : breakers (getOrCreateBreaker initial_state "catalog-service"
                          (sample_options 3500)).2 !! "catalog-service" =
              Some (mkCircuitBreaker 0 "catalog-service"
                      (breaker_settings_of (sample_options 3500))))
    by reflexivity.
  split; [exact H |].
  exact (request_keeps_breakers no_env (fun _ => 0) sample_parseURL always_500
           (fun _ => 0%Q) open_fire _ POST "http://order-service:3002/orders" JNull
           None None _ _ H).
Defined.

Lemma request_breaker_off_frame_witness :
  enabled (breaker (mergeOptions no_env (fun _ => 0) (Some options_breaker_off))) = false /\
  (request no_env (fun _ => 0) sample_parseURL always_500 (fun _ => 0%Q) open_fire
     initial_state GET "http://catalog-service:3001/products" JUndefined None
     (Some options_breaker_off)).2 = initial_state.
Proof.
  assert (H : enabled (breaker (mergeOptions no_env (fun _ => 0)
                (Some options_breaker_off))) = false) by reflexivity.
  split; [exact H |].
  exact (request_breaker_off_frame no_env (fun _ => 0) sample_parseURL always_500
           (fun _ => 0%Q) open_fire initial_state GET
           "http://catalog-service:3001/products" JUndefined None _ H).
Defined.

Lemma request_breaker_on_registers_witness :
  enabled (breaker (mergeOptions no_env (fun _ => 0) None)) = true /\
  let st' := (request no_env (fun _ => 0) sample_parseURL always_500 (fun _ => 0%Q)
                open_fire initial_state GET "http://catalog-service:3001/products"
                JUndefined None None).2 in
  is_Some (breakers st' !! deriveServiceKey sample_parseURL
                              "http://catalog-service:3001/products") /\
  (forall k, k <> deriveServiceKey sample_parseURL "http://catalog-service:3001/products" ->
     breakers st' !! k = breakers initial_state !! k).
Proof.
  assert (H : enabled (breaker (mergeOptions no_env (fun _ => 0) None)) = true)
    by reflexivity.
  split; [exact H |].
  exact (request_breaker_on_registers no_env (fun _ => 0) sample_parseURL always_500
           (fun _ => 0%Q) open_fire initial_state GET
           "http://catalog-service:3001/products" JUndefined None None H).
Defined.

Lemma request_same_key_same_breaker_witness :
  (enabled (breaker (mergeOptions no_env (fun _ => 0) None)) = true /\
   deriveServiceKey sample_parseURL "http://catalog-service:3001/products" =
   deriveServiceKey sample_parseURL "http://catalog-service:3001/products") /\
  let st1 := (request no_env (fun _ => 0) sample_parseURL always_500 (fun _ => 0%Q)
                open_fire initial_state GET "http://catalog-service:3001/products"
                JUndefined None None).2 in
  (getOrCreateBreaker st1
     (deriveServiceKey sample_parseURL "http://catalog-service:3001/products")
     (mergeOptions no_env (fun _ => 0) (Some options_breaker_off))).1 =
  (getOrCreateBreaker initial_state
     (deriveServiceKey sample_parseURL "http://catalog-service:3001/products")
     (mergeOptions no_env (fun _ => 0) None)).1.
Proof.
  assert (H1 : enabled (breaker (mergeOptions no_env (fun _ => 0) None)) = true)
    by reflexivity.
  assert (H2 : deriveServiceKey sample_parseURL "http://catalog-service:3001/products" =
               deriveServiceKey sample_parseURL "http://catalog-service:3001/products")
    by reflexivity.
  split; [split; [exact H1 | exact H2] |].
  exact (request_same_key_same_breaker no_env (fun _ => 0) sample_parseURL always_500
           (fun _ => 0%Q) open_fire initial_state GET GET
           "http://catalog-service:3001/products" "http://catalog-service:3001/products"
           JUndefined JUndefined None None None (Some options_breaker_off) H1 H2).
Defined.

Lemma request_all_breakers_isolated_witness :
  let st := request_all no_env (fun _ => 0) sample_parseURL always_500 (fun _ => 0%Q)
              open_fire initial_state sample_calls in
  let b1 := mkCircuitBreaker 0 "catalog-service"
              (breaker_settings_of (mergeOptions no_env (fun _ => 0) None)) in
  let b2 := mkCircuitBreaker 1 "order-service"
              (breaker_settings_of (mergeOptions no_env (fun _ => 0) None)) in
  (breakers st !! "catalog-service" = Some b1 /\ breakers st !! "order-service" = Some b2) /\
  (breaker_key b1 = "catalog-service" /\
   ("catalog-service" <> "order-service" -> breaker_id b1 <> breaker_id b2)).
Proof.
  cbv zeta.
  assert (H1 : breakers (request_all no_env (fun _ => 0) sample_parseURL always_500
                           (fun _ => 0%Q) open_fire initial_state sample_calls)
                 !! "catalog-service" =
               Some (mkCircuitBreaker 0 "catalog-service"
                       (breaker_settings_of (mergeOptions no_env (fun _ => 0) None))))
    by reflexivity.
  assert (H2 : breakers (request_all no_env (fun _ => 0) sample_parseURL always_500
                           (fun _ => 0%Q) open_fire initial_state sample_calls)
                 !! "order-service" =
               Some (mkCircuitBreaker 1 "order-service"
                       (breaker_settings_of (mergeOptions no_env (fun _ => 0) None))))
    by reflexivity.
  split; [split; [exact H1 | exact H2] |].
  exact (request_all_breakers_isolated no_env (fun _ => 0) sample_parseURL always_500
           (fun _ => 0%Q) open_fire sample_calls _ _ _ _ H1 H2).
Defined.

Lemma mergeOptions_breaker_enabled_env_witness :
  ((None : option HttpClientOptions) ≫= opt_breaker) ≫= opt_enabled = None /\
  (enabled (breaker (mergeOptions
     (fun k => if bool_decide (k = "HTTP_BREAKER_ENABLED") then Some "TRUE" else None)
     (fun _ => 0) None)) = true <->
   Some "TRUE" = None \/ Some "TRUE" = Some "true").
Proof.
  assert (H : ((None : option HttpClientOptions) ≫= opt_breaker) ≫= opt_enabled = None)
    by reflexivity.
  split; [exact H |].
  exact (mergeOptions_breaker_enabled_env
           (fun k => if bool_decide (k = "HTTP_BREAKER_ENABLED") then Some "TRUE" else None)
           (fun _ => 0) None H).
Defined.

Lemma doAxios_sleep_budget_witness :
  (rs_shouldResetTimeout
     (retry_state (inst_retry (mkAxiosInstance 6000 (mkRetryConfig 2 250 1500)))
        (retry_options_of (options_breaker_off_args GET))) = false /\
   0 < effective_timeout (mkAxiosInstance 6000 (mkRetryConfig 2 250 1500))
         (options_breaker_off_args GET) /\
   forall n t, 0 <= (always_500 (options_breaker_off_args GET) n t).2) /\
  fold_right Z.add 0
    (doAxios (mkAxiosInstance 6000 (mkRetryConfig 2 250 1500)) always_500
       (fun _ => 0%Q) (options_breaker_off_args GET)).2 <
  effective_timeout (mkAxiosInstance 6000 (mkRetryConfig 2 250 1500))
    (options_breaker_off_args GET).
Proof.
  assert (H0 : rs_shouldResetTimeout
     (retry_state (inst_retry (mkAxiosInstance 6000 (mkRetryConfig 2 250 1500)))
        (retry_options_of (options_breaker_off_args GET))) = false)
    by reflexivity.
  assert (H1 : 0 < effective_timeout (mkAxiosInstance 6000 (mkRetryConfig 2 250 1500))
                     (options_breaker_off_args GET))
    by (vm_compute; reflexivity).
  assert (H2 : forall n t, 0 <= (always_500 (options_breaker_off_args GET) n t).2)
    by (intros; simpl; lia).
  split; [split; [exact H0 | split; [exact H1 | exact H2]] |].
  exact (doAxios_sleep_budget (mkAxiosInstance 6000 (mkRetryConfig 2 250 1500))
           always_500 (fun _ => 0%Q) (options_breaker_off_args GET) H0 H1 H2).
Defined.

(** * Timeouts, option precedence, breaker bookkeeping *)

Lemma retry_loop_ext (rs : RetryState) (meth : string) (vs : option (Z -> bool))
    (tr1 tr2 : nat -> Z -> Exchange * Z) (rnd : nat -> Q)
    (Htr : forall n t, tr1 n t = tr2 n t) :
  forall fuel rc t n,
  retry_loop rs meth vs tr1 rnd fuel rc t n = retry_loop rs meth vs tr2 rnd fuel rc t n.
Proof.
  induction fuel as [| fuel IH]; intros rc t n; simpl; rewrite Htr;
    [reflexivity |].
  destruct (tr2 n t) as [x dur].
  destruct (settle meth vs x) as [res | err]; [reflexivity |].
  destruct (validated rs x); [reflexivity |].
  destruct (retry_decision rs rc err) as [[|] |]; try reflexivity.
  destruct (rs_retryDelay rs) as [g |]; [| reflexivity].
  destruct (if negb (rs_shouldResetTimeout rs) && negb (t =? 0)
            then (if t - dur - g (rc + 1) err (rnd n) <=? 0 then None
                  else Some (t - dur - g (rc + 1) err (rnd n)))
            else Some t) as [t' |]; [| reflexivity].
  destruct (match rs_onRetry rs with
            | Some g0 => g0 (rc + 1) err
            | None => Some "TypeError: onRetry is not a function"
            end); [reflexivity |].
  rewrite IH. reflexivity.
Qed.

(** Two [doAxios] calls that hand axios the same request behave alike. *)
Lemma doAxios_sent (inst : AxiosInstance)
    (transport : DoAxiosArgs -> nat -> Z -> Exchange * Z) (rnd : nat -> Q)
    (a1 a2 : DoAxiosArgs)
    (Htr : forall a1 a2, sent_request inst a1 = sent_request inst a2 ->
           forall n t, transport a1 n t = transport a2 n t)
    (Hsent : sent_request inst a1 = sent_request inst a2) :
  doAxios inst transport rnd a1 = doAxios inst transport rnd a2.
Proof.
  unfold doAxios.
  assert (Hm : effective_method a1 = effective_method a2)
    by (injection Hsent; auto).
  assert (Hc : arg_config a1 = arg_config a2) by (injection Hsent; auto).
  assert (Ht : effective_timeout inst a1 = effective_timeout inst a2)
    by (injection Hsent; auto).
  assert (Ho : retry_options_of a1 = retry_options_of a2)
    by (unfold retry_options_of; rewrite Hc; reflexivity).
  assert (Hv : forall rs, effective_validateStatus rs a1 = effective_validateStatus rs a2)
    by (intros; unfold effective_validateStatus; rewrite Hc; reflexivity).
  rewrite Hm, Ht, Ho, Hv. apply retry_loop_ext. exact (Htr a1 a2 Hsent).
Qed.

(** X10. [{ timeout: timeoutMs, ...config }]: when the per-call axios
    config sets [timeout] to a value, it overrides [opts.timeoutMs], so
    with the breaker off two calls differing only in [opts.timeoutMs]
    give the same result and state (given a transport that only sees
    what axios is sent). *)
Theorem request_config_timeout_wins
    (env : string -> option string) (Number : string -> Z)
    (parseURL : string -> option URLRecord)
    (transport : DoAxiosArgs -> nat -> Z -> Exchange * Z) (rnd : nat -> Q)
    (fire : CircuitBreaker -> DoAxiosArgs -> HttpResponse + CallError)
    (st : ClientState) (m : HttpMethod) (url : string) (d : JsVal)
    (c : AxiosRequestConfig) (ct : Z)
    (t1 t2 : option Z) (r : option RetryOptions) (b : option BreakerOptions)
    (Htr : forall a1 a2, sent_request (constructor_instance env Number) a1 =
                         sent_request (constructor_instance env Number) a2 ->
           forall n t, transport a1 n t = transport a2 n t)
    (Hct : config_timeout c = Val ct)
    (Hoff : enabled (breaker (mergeOptions env Number
              (Some (mkHttpClientOptions t1 r b)))) = false) :
  request env Number parseURL transport rnd fire st m url d (Some c)
    (Some (mkHttpClientOptions t1 r b)) =
  request env Number parseURL transport rnd fire st m url d (Some c)
    (Some (mkHttpClientOptions t2 r b)).
Proof.
  assert (Hoff2 : enabled (breaker (mergeOptions env Number
                    (Some (mkHttpClientOptions t2 r b)))) = false) by exact Hoff.
  unfold request. cbv zeta. rewrite Hoff, Hoff2.
  rewrite (doAxios_sent (constructor_instance env Number) transport rnd
    (mkDoAxiosArgs m url d (Some c)
       (timeoutMs (mergeOptions env Number (Some (mkHttpClientOptions t1 r b)))))
    (mkDoAxiosArgs m url d (Some c)
       (timeoutMs (mergeOptions env Number (Some (mkHttpClientOptions t2 r b)))))
    Htr); [reflexivity |].
  unfold sent_request, effective_timeout. simpl. rewrite Hct. reflexivity.
Qed.

(** X11. [opts?.x ?? env]: for any options, full or partial, and any
    environment, every field the caller passes is taken as is, including
    [0] and [false]; the environment and the defaults only fill the
    fields left out. *)
Theorem mergeOptions_caller_values_win
    (env : string -> option string) (Number : string -> Z)
    (opts : option HttpClientOptions) :
  let mo := mergeOptions env Number opts in
  let ro := opts ≫= opt_retry in
  let bo := opts ≫= opt_breaker in
  (forall v, opts ≫= opt_timeoutMs = Some v -> timeoutMs mo = v) /\
  (forall v, ro ≫= opt_retries = Some v -> retries (retry mo) = v) /\
  (forall v, ro ≫= opt_baseDelayMs = Some v -> baseDelayMs (retry mo) = v) /\
  (forall v, ro ≫= opt_maxDelayMs = Some v -> maxDelayMs (retry mo) = v) /\
  (forall v, bo ≫= opt_enabled = Some v -> enabled (breaker mo) = v) /\
  (forall v, bo ≫= opt_breaker_timeoutMs = Some v ->
             breaker_timeoutMs (breaker mo) = v) /\
  (forall v, bo ≫= opt_errorThresholdPercentage = Some v ->
             errorThresholdPercentage (breaker mo) = v) /\
  (forall v, bo ≫= opt_resetTimeoutMs = Some v -> resetTimeoutMs (breaker mo) = v) /\
  (forall v, bo ≫= opt_rollingCountTimeoutMs = Some v ->
             rollingCountTimeoutMs (breaker mo) = v) /\
  (forall v, bo ≫= opt_rollingCountBuckets = Some v ->
             rollingCountBuckets (breaker mo) = v).
Proof.
  cbv zeta. unfold mergeOptions. cbv zeta.
  repeat split; intros v Hv; simpl; rewrite Hv; reflexivity.
Qed.

Lemma registry_count_initial : registry_count initial_state.
Proof. split; reflexivity. Qed.

Lemma getOrCreateBreaker_count (st : ClientState) (key : string) (o : MergedOptions) :
  registry_count st -> registry_count (getOrCreateBreaker st key o).2.
Proof.
  intros [Hn Hl]. unfold getOrCreateBreaker.
  destruct (breakers st !! key) as [b0 |] eqn:Hkey; simpl; [split; assumption |].
  unfold registry_count. cbn [breakers next_id created length].
  rewrite map_size_insert_None by exact Hkey. lia.
Qed.

Lemma request_all_count_inv
    (env : string -> option string) (Number : string -> Z)
    (parseURL : string -> option URLRecord)
    (transport : DoAxiosArgs -> nat -> Z -> Exchange * Z) (rnd : nat -> Q)
    (fire : CircuitBreaker -> DoAxiosArgs -> HttpResponse + CallError) :
  forall calls st, registry_count st /\ registry_inv st ->
  registry_count (request_all env Number parseURL transport rnd fire st calls) /\
  registry_inv (request_all env Number parseURL transport rnd fire st calls).
Proof.
  induction calls as [| [[[[m u] d] c] o] rest IH]; intros st [Hc Hi]; simpl;
    [split; assumption |].
  apply IH. rewrite request_state.
  destruct (enabled _);
    [split; [apply getOrCreateBreaker_count | apply getOrCreateBreaker_inv] |
     split]; assumption.
Qed.

(** X12. After any sequence of calls on a fresh client, exactly one
    breaker was constructed per stored service key: the number of
    constructions equals the size of the map, and every constructed
    breaker is the one stored under its key. *)
Theorem request_all_one_breaker_per_key
    (env : string -> option string) (Number : string -> Z)
    (parseURL : string -> option URLRecord)
    (transport : DoAxiosArgs -> nat -> Z -> Exchange * Z) (rnd : nat -> Q)
    (fire : CircuitBreaker -> DoAxiosArgs -> HttpResponse + CallError)
    (calls : list (HttpMethod * string * JsVal * option AxiosRequestConfig *
                   option HttpClientOptions)) :
  let st := request_all env Number parseURL transport rnd fire initial_state calls in
  length (created st) = size (breakers st) /\
  next_id st = size (breakers st) /\
  (forall b, In b (created st) -> breakers st !! breaker_key b = Some b).
Proof.
  cbv zeta.
  destruct (request_all_count_inv env Number parseURL transport rnd fire calls
              initial_state (conj registry_count_initial registry_inv_initial))
    as [[Hn Hl] Hi].
  split; [exact Hl | split; [exact Hn | exact Hi]].
Qed.

(** Witnesses *)

Lemma request_config_timeout_wins_witness :
  ((forall a1 a2, sent_request (constructor_instance no_env (fun _ => 0)) a1 =
                  sent_request (constructor_instance no_env (fun _ => 0)) a2 ->
      forall n t, always_500 a1 n t = always_500 a2 n t) /\
   config_timeout (mkAxiosRequestConfig (Val 1000) Absent Absent None) = Val 1000 /\
   enabled (breaker (mergeOptions no_env (fun _ => 0)
     (Some (mkHttpClientOptions (Some 6000) None
              (opt_breaker options_breaker_off))))) = false) /\
  request no_env (fun _ => 0) sample_parseURL always_500 (fun _ => 0%Q) open_fire
    initial_state GET "http://catalog-service:3001/products" JUndefined
    (Some (mkAxiosRequestConfig (Val 1000) Absent Absent None))
    (Some (mkHttpClientOptions (Some 6000) None (opt_breaker options_breaker_off))) =
  request no_env (fun _ => 0) sample_parseURL always_500 (fun _ => 0%Q) open_fire
    initial_state GET "http://catalog-service:3001/products" JUndefined
    (Some (mkAxiosRequestConfig (Val 1000) Absent Absent None))
    (Some (mkHttpClientOptions (Some 0) None (opt_breaker options_breaker_off))).
Proof.
  assert (Htr : forall a1 a2,
            sent_request (constructor_instance no_env (fun _ => 0)) a1 =
            sent_request (constructor_instance no_env (fun _ => 0)) a2 ->
            forall n t, always_500 a1 n t = always_500 a2 n t)
    by (intros; reflexivity).
  assert (Hct : config_timeout (mkAxiosRequestConfig (Val 1000) Absent Absent None)
                = Val 1000) by reflexivity.
  assert (Hoff : enabled (breaker (mergeOptions no_env (fun _ => 0)
     (Some (mkHttpClientOptions (Some 6000) None
              (opt_breaker options_breaker_off))))) = false) by reflexivity.
  split; [split; [exact Htr | split; [exact Hct | exact Hoff]] |].
  exact (request_config_timeout_wins no_env (fun _ => 0) sample_parseURL always_500
           (fun _ => 0%Q) open_fire initial_state GET
           "http://catalog-service:3001/products" JUndefined
           (mkAxiosRequestConfig (Val 1000) Absent Absent None) 1000 (Some 6000)
           (Some 0) None (opt_breaker options_breaker_off) Htr Hct Hoff).
Defined.




